(** * Playlist downloader backend: the streaming generator, the session
    registry and the cancel endpoint of [main.py]

    The module is a thin HTTP front for an external download tool.  The
    tool, the file system, the JSON decoder and the interpreter's rendering
    of library exceptions are the environment of the program: they are
    gathered in the record [environment] and every function of the module
    is embedded as a function of that record.  Text is modelled by
    [string], one character per code point below 256. *)

From Stdlib Require Import ZArith Ascii String List Lia.
From stdpp Require Import gmap strings list.

Set Warnings "-register-all".
Set Default Proof Using "Type".

(** ** Text helpers: [str.strip], [str.splitlines], [in] on strings *)

Module Text.

(** [str.isspace] on one character (code points below 256). *)
Definition isspace (c : ascii) : bool :=
  let n := Ascii.nat_of_ascii c in
  ((9 <=? n)%nat && (n <=? 13)%nat) || ((28 <=? n)%nat && (n <=? 32)%nat)
  || (n =? 133)%nat || (n =? 160)%nat.

Fixpoint lstrip (s : string) : string :=
  match s with
  | EmptyString => EmptyString
  | String c s' => if isspace c then lstrip s' else s
  end.

Fixpoint rstrip (s : string) : string :=
  match s with
  | EmptyString => EmptyString
  | String c s' =>
      match rstrip s' with
      | EmptyString => if isspace c then EmptyString else String c EmptyString
      | r => String c r
      end
  end.

(** [s.strip()] *)
Definition strip (s : string) : string := rstrip (lstrip s).

(** Truth value of a string: non-empty. *)
Definition truthy (s : string) : bool :=
  match s with EmptyString => false | String _ _ => true end.

(** Line boundaries of [str.splitlines] (code points below 256), the pair
    carriage return + line feed apart. *)
Definition is_linebreak (c : ascii) : bool :=
  let n := Ascii.nat_of_ascii c in
  ((10 <=? n)%nat && (n <=? 13)%nat) || ((28 <=? n)%nat && (n <=? 30)%nat)
  || (n =? 133)%nat.

Definition is_cr (c : ascii) : bool := (Ascii.nat_of_ascii c =? 13)%nat.
Definition is_lf (c : ascii) : bool := (Ascii.nat_of_ascii c =? 10)%nat.

(** [cur] holds the characters of the current line, last one first. *)
Fixpoint splitlines_from (cur : string) (s : string) : list string :=
  match s with
  | EmptyString =>
      match cur with
      | EmptyString => []
      | _ => [String.rev cur]
      end
  | String c rest =>
      if is_linebreak c then
        match rest with
        | String c' rest' =>
            if is_cr c && is_lf c'
            then String.rev cur :: splitlines_from EmptyString rest'
            else String.rev cur :: splitlines_from EmptyString rest
        | EmptyString => String.rev cur :: splitlines_from EmptyString rest
        end
      else splitlines_from (String c cur) rest
  end.

(** [s.splitlines()] *)
Definition splitlines (s : string) : list string :=
  splitlines_from EmptyString s.

(** [s] starts with [p]: the rest of [s] after [p]. *)
Fixpoint strip_prefix (p s : string) : option string :=
  match p with
  | EmptyString => Some s
  | String a p' =>
      match s with
      | String b s' => if Ascii.eqb a b then strip_prefix p' s' else None
      | EmptyString => None
      end
  end.

(** [needle in s] for two strings: [needle] occurs somewhere in [s]. *)
Fixpoint contains (needle s : string) : bool :=
  match strip_prefix needle s with
  | Some _ => true
  | None =>
      match s with
      | EmptyString => false
      | String _ s' => contains needle s'
      end
  end.

End Text.

(** ** Regular expressions, as far as the two patterns of the module use
    them *)

Module Re.

Inductive regex : Type :=
| Lit (s : string)            (* a run of literal characters *)
| Seq (r1 r2 : regex)         (* r1 r2 *)
| Alt (r1 r2 : regex)         (* r1|r2 *)
| Opt (r : regex)             (* (r)? *)
| DotStar                     (* .*  : any run of characters but newline *)
| Bos                         (* ^   : start of the text *)
| Eos.                        (* $   : end of the text, or just before
                                       a newline that ends it *)

(** [.*] followed by the continuation [k]: every split point up to the
    first newline is tried. *)
Fixpoint dotstar (s : string) (k : bool -> string -> bool) (start : bool)
  : bool :=
  match s with
  | EmptyString => k start s
  | String c s' =>
      if Text.is_lf c then k start s
      else dotstar s' k false || k start s
  end.

(** Backtracking matcher in continuation-passing style.  [start] tells
    whether no character has been consumed yet; [k] is what remains to be
    matched after [r]. *)
Fixpoint matches (r : regex) (start : bool) (s : string)
  (k : bool -> string -> bool) : bool :=
  match r with
  | Lit p =>
      match Text.strip_prefix p s with
      | Some s' => k (start && negb (Text.truthy p)) s'
      | None => false
      end
  | Seq r1 r2 => matches r1 start s (fun b s' => matches r2 b s' k)
  | Alt r1 r2 => matches r1 start s k || matches r2 start s k
  | Opt r1 => matches r1 start s k || k start s
  | DotStar => dotstar s k start
  | Bos => start && k start s
  | Eos =>
      match s with
      | EmptyString => k start s
      | String c EmptyString => if Text.is_lf c then k start s else false
      | String _ (String _ _) => false
      end
  end.

(** [re.match(r, s) is not None]: a match that begins at the first
    character; the text need not be consumed to its end. *)
Definition re_match (r : regex) (s : string) : bool :=
  matches r true s (fun _ _ => true).

End Re.

(** ** JSON values, as [json.loads] returns them *)

Inductive json : Type :=
| JNull
| JBool (b : bool)
| JNum (literal : string)
| JStr (s : string)
| JArr (items : list json)
| JObj (members : list (string * json)).

(** Value stored under [key] in a decoded object (a dict: one value per
    key). *)
Fixpoint dict_get (key : string) (members : list (string * json))
  : option json :=
  match members with
  | [] => None
  | (k, v) :: rest => if String.eqb k key then Some v else dict_get key rest
  end.

(** Exceptions the module raises or meets.  Every one of them is an
    [Exception] in the sense of [except Exception]. *)
Inductive exn : Type :=
| Exception_ (msg : string)                 (* raise Exception(msg) *)
| HTTPException (status_code : nat) (detail : string)
| JSONDecodeError (doc : string)            (* json.loads: the text is not JSON *)
| RecursionError (msg : string)             (* json.loads: nested too deep *)
| ValueError (msg : string)                 (* json.loads: a number too long *)
| TypeError (operand : json)                (* in / subscript on a wrong type *)
| KeyError (key : string)
| TimeoutExpired (timeout : nat)            (* subprocess *)
| OSError (what : string).                  (* makedirs, process start *)

(** [key in v], for a string [key]: [inl] is the exception raised. *)
Definition py_in (key : string) (v : json) : exn + bool :=
  match v with
  | JObj members => inr (bool_decide (is_Some (dict_get key members)))
  | JArr items =>
      inr (existsb (fun x => match x with
                             | JStr s => String.eqb s key
                             | _ => false
                             end) items)
  | JStr s => inr (Text.contains key s)
  | JNull | JBool _ | JNum _ => inl (TypeError v)
  end.

(** [v[key]], for a string [key]. *)
Definition py_getitem (v : json) (key : string) : exn + json :=
  match v with
  | JObj members =>
      match dict_get key members with
      | Some x => inr x
      | None => inl (KeyError key)
      end
  | _ => inl (TypeError v)
  end.

(** ** Processes, events and the trace of a run *)

(** What [subprocess.run] hands back (a [CompletedProcess]). *)
Record CompletedProcess : Type := {
  cp_returncode : Z;
  cp_stdout : string;
  cp_stderr : string
}.

(** One run of the tool to completion: [duration] is the time it takes
    ([None]: it never ends on its own). *)
Record tool_run : Type := {
  duration : option nat;
  completed : CompletedProcess
}.

(** A started download process (a [Popen] handle) with what the program
    can observe of it: the lines read from its standard output until the
    pipe closes, its exit code, the text of its standard error, and the
    time it takes to exit once asked to terminate ([None]: it ignores the
    request). *)
Record Popen : Type := {
  pid : nat;
  p_stdout : list string;
  p_returncode : Z;
  p_stderr : string;
  exit_delay : option nat
}.

(** The run ends within [t] time units. *)
Definition finishes_within (t : nat) (r : tool_run) : bool :=
  match duration r with
  | Some d => (d <=? t)%nat
  | None => false
  end.

(** The session registry, [download_sessions: Dict[str, Popen]]. *)
Abbreviation registry := (gmap string Popen).

(** The frames the generator yields, [event: <name>\ndata: <data>\n\n]:
    [total] with the count, [progress] with the JSON object
    [{video, completed, total}], [complete], and [error] with its text. *)
Inductive event : Type :=
| EvTotal (total_videos : nat)
| EvProgress (video : json) (completed_videos total_videos : nat)
| EvComplete
| EvError (data : string).

Definition event_name (e : event) : string :=
  match e with
  | EvTotal _ => "total"
  | EvProgress _ _ _ => "progress"
  | EvComplete => "complete"
  | EvError _ => "error"
  end.

(** Everything a run does that is visible from outside, in order. *)
Inductive action : Type :=
| Yield (e : event)
| Print (text : string)
| Makedirs (path : string)
| Run (command : list string) (timeout : nat)       (* subprocess.run *)
| Spawn (command : list string)                     (* subprocess.Popen *)
| SessionsIn (session_id : string) (present : bool) (* id in download_sessions *)
| SessionsSet (session_id : string) (p : Popen)     (* download_sessions[id] = p *)
| SessionsDel (session_id : string)                 (* del download_sessions[id] *)
| Terminate (p : Popen)
| Wait (p : Popen) (timeout : option nat)
| Kill (p : Popen).

(** ** A monad for the module's code: trace, registry, exceptions and
    the generator's [return] *)

Inductive outcome (A : Type) : Type :=
| Normal (a : A)
| Returned
| Raised (e : exn).
Arguments Normal {A} a.
Arguments Returned {A}.
Arguments Raised {A} e.

Record result (A : Type) : Type := Result {
  trace : list action;
  sessions : registry;
  out : outcome A
}.
Arguments Result {A} _ _ _.
Arguments trace {A} _.
Arguments sessions {A} _.
Arguments out {A} _.

Definition prog (A : Type) : Type := registry -> result A.

Definition prog_ret {A} (a : A) : prog A :=
  fun reg => Result [] reg (Normal a).

Definition prog_bind {A B} (f : A -> prog B) (m : prog A) : prog B :=
  fun reg =>
    match m reg with
    | Result t reg' (Normal a) =>
        match f a reg' with
        | Result t' reg'' o => Result (t ++ t') reg'' o
        end
    | Result t reg' Returned => Result t reg' Returned
    | Result t reg' (Raised e) => Result t reg' (Raised e)
    end.

#[global] Instance prog_mret : MRet prog := @prog_ret.
#[global] Instance prog_mbind : MBind prog := @prog_bind.

Definition emit (a : action) : prog unit :=
  fun reg => Result [a] reg (Normal tt).

Definition yield (e : event) : prog unit := emit (Yield e).

Definition raise {A} (e : exn) : prog A :=
  fun reg => Result [] reg (Raised e).

(** [return] inside the generator. *)
Definition return_ {A} : prog A :=
  fun reg => Result [] reg Returned.

Definition lift {A} (x : exn + A) : prog A :=
  match x with
  | inl e => raise e
  | inr a => mret a
  end.

(** [try: body / except <class> as e: handler e] *)
Definition try_except {A} (catches : exn -> bool) (body : prog A)
  (handler : exn -> prog A) : prog A :=
  fun reg =>
    match body reg with
    | Result t reg' (Raised e) =>
        if catches e then
          match handler e reg' with
          | Result t' reg'' o => Result (t ++ t') reg'' o
          end
        else Result t reg' (Raised e)
    | r => r
    end.

(** [try: body / finally: cleanup]: the cleanup runs however the body
    ends; the body's way of ending is kept unless the cleanup itself
    raises or returns. *)
Definition try_finally {A} (body : prog A) (cleanup : prog unit) : prog A :=
  fun reg =>
    match body reg with
    | Result t reg' o =>
        match cleanup reg' with
        | Result t' reg'' o' =>
            Result (t ++ t') reg''
              match o' with
              | Normal _ => o
              | Returned => Returned
              | Raised e => Raised e
              end
        end
    end.

Definition is_Exception (e : exn) : bool := true.

Definition is_JSONDecodeError (e : exn) : bool :=
  match e with JSONDecodeError _ => true | _ => false end.

Definition is_TimeoutExpired (e : exn) : bool :=
  match e with TimeoutExpired _ => true | _ => false end.

(** The events of a trace, in order: what the client receives. *)
Fixpoint events (t : list action) : list event :=
  match t with
  | [] => []
  | Yield e :: t' => e :: events t'
  | _ :: t' => events t'
  end.

(** *** The registry operations the module uses *)

Definition sessions_contains (session_id : string) : prog bool :=
  fun reg =>
    let present := bool_decide (is_Some (reg !! session_id)) in
    Result [SessionsIn session_id present] reg (Normal present).

Definition sessions_setitem (session_id : string) (p : Popen) : prog unit :=
  fun reg =>
    Result [SessionsSet session_id p] (<[session_id := p]> reg) (Normal tt).

Definition sessions_getitem (session_id : string) : prog Popen :=
  fun reg =>
    match reg !! session_id with
    | Some p => Result [] reg (Normal p)
    | None => Result [] reg (Raised (KeyError session_id))
    end.

Definition sessions_delitem (session_id : string) : prog unit :=
  fun reg =>
    match reg !! session_id with
    | Some _ => Result [SessionsDel session_id] (delete session_id reg) (Normal tt)
    | None => Result [] reg (Raised (KeyError session_id))
    end.

(** *** Process control *)

Definition process_terminate (p : Popen) : prog unit := emit (Terminate p).
Definition process_kill (p : Popen) : prog unit := emit (Kill p).

(** The process has exited [t] time units after the request to
    terminate. *)
Definition exits_within (t : nat) (p : Popen) : bool :=
  match exit_delay p with
  | Some d => (d <=? t)%nat
  | None => false
  end.

(** [p.wait(timeout)]: without a timeout the call lasts until the process
    has exited; with one it raises [TimeoutExpired] when the process has
    not exited in time. *)
Definition process_wait (p : Popen) (timeout : option nat) : prog unit :=
  emit (Wait p timeout);;
  match timeout with
  | None => mret tt
  | Some t => if exits_within t p then mret tt else raise (TimeoutExpired t)
  end.

(** A [Popen] object defines neither [__bool__] nor [__len__]: it is
    true in a condition. *)
Definition truth_of_process (p : Popen) : bool := true.

(** ** The environment *)

Record environment : Type := {
  (** [os.path.expanduser("~")] *)
  home : string;
  (** [json.loads]: the value it returns, [None] when it raises *)
  json_loads : string -> option json;
  (** the exception [json.loads] raises on a text for which it does not
      return: [JSONDecodeError] when the text is not JSON, another one
      ([RecursionError], [ValueError]) when it is JSON that the decoder
      cannot handle *)
  json_loads_raises : string -> exn;
  (** [str(e)] for the exceptions of the libraries *)
  library_str : exn -> string;
  (** [os.makedirs(path, exist_ok=True)]: the exception it raises, if any *)
  os_makedirs : string -> option exn;
  (** the tool run by [subprocess.run]: it cannot be started, or it runs *)
  tool : list string -> exn + tool_run;
  (** [subprocess.Popen]: the tool cannot be started, or the handle *)
  popen : list string -> exn + Popen;
  (** [str(uuid.uuid4())] *)
  uuid4 : string
}.

(** [os.path.join] of two components (POSIX). *)
Fixpoint ends_with_slash (s : string) : bool :=
  match s with
  | EmptyString => false
  | String c EmptyString => Ascii.eqb c "/"
  | String _ s' => ends_with_slash s'
  end.

Definition path_join (a b : string) : string :=
  match Text.strip_prefix "/" b with
  | Some _ => b
  | None =>
      if negb (Text.truthy a) || ends_with_slash a then a +:+ b
      else a +:+ "/" +:+ b
  end.

(** [YOUTUBE_REGEX = r'(https?://)?(www\.)?(youtube|youtu)\.(com|be)/.*'] *)
Definition YOUTUBE_REGEX : Re.regex :=
  Re.Seq (Re.Opt (Re.Seq (Re.Lit "http") (Re.Seq (Re.Opt (Re.Lit "s")) (Re.Lit "://"))))
 (Re.Seq (Re.Opt (Re.Lit "www."))
 (Re.Seq (Re.Alt (Re.Lit "youtube") (Re.Lit "youtu"))
 (Re.Seq (Re.Lit ".")
 (Re.Seq (Re.Alt (Re.Lit "com") (Re.Lit "be"))
 (Re.Seq (Re.Lit "/") Re.DotStar))))).

(** [validate_youtube_url] *)
Definition validate_youtube_url (url : string) : bool :=
  Re.re_match YOUTUBE_REGEX url.

(** The pattern declared for the [format] query parameter,
    [^(mp4|mp3)$]. *)
Definition FORMAT_REGEX : Re.regex :=
  Re.Seq Re.Bos (Re.Seq (Re.Alt (Re.Lit "mp4") (Re.Lit "mp3")) Re.Eos).

Section Module_main.

Variable env : environment.

Definition DOWNLOADS_DIR : string := path_join (home env) "Downloads".

(** [str(e)]: the message itself for [Exception(msg)], the library's
    text otherwise. *)
Definition str (e : exn) : string :=
  match e with
  | Exception_ msg => msg
  | _ => library_str env e
  end.

Definition loads (line : string) : prog json :=
  match json_loads env line with
  | Some v => mret v
  | None => raise (json_loads_raises env line)
  end.

Definition makedirs (path : string) : prog unit :=
  emit (Makedirs path);;
  match os_makedirs env path with
  | Some e => raise e
  | None => mret tt
  end.

(** [subprocess.run(command, capture_output=True, text=True,
    timeout=timeout)] *)
Definition subprocess_run (command : list string) (timeout : nat)
  : prog CompletedProcess :=
  emit (Run command timeout);;
  match tool env command with
  | inl e => raise e
  | inr r =>
      if finishes_within timeout r then mret (completed r)
      else raise (TimeoutExpired timeout)
  end.

(** [subprocess.Popen(command, stdout=PIPE, stderr=PIPE, text=True,
    bufsize=1)] *)
Definition subprocess_Popen (command : list string) : prog Popen :=
  emit (Spawn command);;
  lift (popen env command).

(** [sum(1 for line in lines if line.strip() and 'id' in json.loads(line))]:
    the lines are visited in order and the first exception ends the sum. *)
Fixpoint count_ids (lines : list string) : prog nat :=
  match lines with
  | [] => mret 0
  | line :: rest =>
      if Text.truthy (Text.strip line) then
        v ← loads line;
        has_id ← lift (py_in "id" v);
        n ← count_ids rest;
        mret ((if has_id : bool then 1 else 0) + n)
      else count_ids rest
  end.

Definition enumerate_command (playlist_url : string) : list string :=
  ["yt-dlp"; "--flat-playlist"; "--print-json"; playlist_url].

(** [get_total_videos] *)
Definition get_total_videos (playlist_url : string) : prog nat :=
  try_except is_Exception
    (let command := enumerate_command playlist_url in
     result ← subprocess_run command 30;
     if negb (cp_returncode result =? 0)%Z then
       raise (Exception_ ("yt-dlp error: " +:+ cp_stderr result))
     else count_ids (Text.splitlines (cp_stdout result)))
    (fun e =>
       emit (Print ("Error getting total videos: " +:+ str e));;
       raise e).

(** The body of the loop over the lines of the download process, as a
    function from the value of [completed_videos] before the line to its
    value after.  [JSONDecodeError] can only come from [json.loads], before
    the counter is touched, so the handler ([continue]) leaves it as it
    was; any other exception of [json.loads] passes the handler. *)
Definition translate_line (total_videos completed_videos : nat)
  (line : string) : prog nat :=
  if Text.truthy (Text.strip line) then
    try_except is_JSONDecodeError
      (video_data ← loads line;
       has_title ← lift (py_in "title" video_data);
       if has_title : bool then
         let completed_videos := S completed_videos in
         video ← lift (py_getitem video_data "title");
         yield (EvProgress video completed_videos total_videos);;
         mret completed_videos
       else mret completed_videos)
      (fun _ => mret completed_videos)
  else mret completed_videos.

(** [for line in process.stdout: ...] *)
Fixpoint read_output (total_videos : nat) (lines : list string)
  (completed_videos : nat) : prog nat :=
  match lines with
  | [] => mret completed_videos
  | line :: rest =>
      completed_videos ← translate_line total_videos completed_videos line;
      read_output total_videos rest completed_videos
  end.

Definition download_command (playlist_url format : string) : list string :=
  ["yt-dlp";
   "--yes-playlist";
   "-f"; if String.eqb format "mp3" then "bestaudio" else "bestvideo+bestaudio";
   "-o"; path_join DOWNLOADS_DIR "%(title)s.%(ext)s";
   "--print-json";
   "--download-archive"; path_join DOWNLOADS_DIR "archive.txt";
   "--no-simulate";
   "--newline";
   playlist_url].

(** The [try] block of [stream_playlist_download], lines 61 to 126. *)
Definition stream_body (playlist_url format session_id : string) : prog unit :=
  if negb (validate_youtube_url playlist_url) then
    yield (EvError "Invalid YouTube URL");;
    @return_ unit
  else
    makedirs DOWNLOADS_DIR;;
    total_videos ←
      try_except is_Exception
        (total_videos ← get_total_videos playlist_url;
         yield (EvTotal total_videos);;
         mret total_videos)
        (fun e =>
           yield (EvError ("Failed to get playlist info: " +:+ str e));;
           @return_ nat);
    process ← subprocess_Popen (download_command playlist_url format);
    sessions_setitem session_id process;;
    _ ← read_output total_videos (p_stdout process) 0;
    process_wait process None;;
    if (p_returncode process =? 0)%Z then yield EvComplete
    else
      let error_output := p_stderr process in
      yield (EvError ("Download failed: " +:+ error_output)).

(** The [finally] block, lines 130 to 133. *)
Definition stream_cleanup (session_id : string) : prog unit :=
  present ← sessions_contains session_id;
  if present : bool then sessions_delitem session_id else mret tt.

(** The [try] block under its handler [except Exception as e], lines 60
    to 129. *)
Definition stream_try (playlist_url format session_id : string) : prog unit :=
  try_except is_Exception
    (stream_body playlist_url format session_id)
    (fun e => yield (EvError (str e))).

(** [stream_playlist_download] *)
Definition stream_playlist_download (playlist_url format session_id : string)
  : prog unit :=
  try_finally
    (stream_try playlist_url format session_id)
    (stream_cleanup session_id).

(** *** The HTTP surface *)

(** What the framework hands to the client for a streamed body. *)
Record StreamingResponse : Type := {
  body_iterator : prog unit;
  media_type : string
}.

(** [download_endpoint], called with two parameters that passed their
    declared constraints.  The generator is only built here; it runs when
    the response is sent. *)
Definition download_endpoint (playlist_url format : string)
  : StreamingResponse :=
  let session_id := uuid4 env in
  {| body_iterator := stream_playlist_download playlist_url format session_id;
     media_type := "text/event-stream" |}.

(** The query string of a request to [/download]. *)
Record download_query : Type := {
  q_playlist_url : option string;
  q_format : option string
}.

(** Modelled from the spec: the check of the query parameters, which the
    web framework performs before it calls [download_endpoint] and which
    is not in the sources.  The spec (4.4, 6) gives the constraints and
    lines 137 and 138 declare them: [playlist_url] is required and has at
    least 10 characters; [format] defaults to [mp4] and is matched against
    the pattern of line 138 the way Python's [re.match] does, so that [$]
    also matches before a final newline. *)
Definition check_download_query (q : download_query)
  : option (string * string) :=
  match q_playlist_url q with
  | None => None
  | Some playlist_url =>
      if (10 <=? String.length playlist_url)%nat then
        let format := default "mp4" (q_format q) in
        if Re.re_match FORMAT_REGEX format then Some (playlist_url, format)
        else None
      else None
  end.

(** Modelled from the spec: sending a generator to the client (the
    framework's [StreamingResponse]); it is run to its end and its own
    [return] ends the body. *)
Definition send_body (g : prog unit) : prog unit :=
  fun reg =>
    match g reg with
    | Result t reg' Returned => Result t reg' (Normal tt)
    | r => r
    end.

(** Modelled from the spec: the answer of the web framework to
    [GET /download], which is not in the sources.  A request that fails
    the check is answered 422 and the endpoint function is not called;
    otherwise [download_endpoint] (lines 135 to 145) is called, the body it
    returns is sent, and the status is 200. *)
Definition get_download (q : download_query) : prog nat :=
  match check_download_query q with
  | None => mret 422
  | Some (playlist_url, format) =>
      send_body (body_iterator (download_endpoint playlist_url format));;
      mret 200
  end.

(** [cancel_download] *)
Definition cancel_download (session_id : string) : prog json :=
  present ← sessions_contains session_id;
  if negb present then raise (HTTPException 404 "Session not found")
  else
    process ← sessions_getitem session_id;
    (if truth_of_process process then
       process_terminate process;;
       try_except is_TimeoutExpired
         (process_wait process (Some 5))
         (fun _ => process_kill process);;
       sessions_delitem session_id
     else mret tt);;
    mret (JObj [("message",
                 JStr ("Download session " +:+ session_id +:+ " cancelled"))]).

(** [list_sessions].  The keys are listed in the order of the model's
    map, which is not the insertion order of the Python dictionary: only
    which ids are listed is meaningful here. *)
Definition list_sessions : prog json :=
  fun reg =>
    Result [] reg
      (Normal (JObj [("active_sessions",
                      JArr (JStr <$> (map_to_list reg).*1))])).

End Module_main.

(** ** A concrete environment, to run the embedding *)

Module Demo.

Definition nl : string := String "010" EmptyString.

(** A decoder that knows a handful of lines. *)
Definition demo_loads (line : string) : option json :=
  let s := Text.strip line in
  if String.eqb s "{id:a}" then Some (JObj [("id", JStr "a")])
  else if String.eqb s "{id:b}" then Some (JObj [("id", JStr "b")])
  else if String.eqb s "{title:A}" then Some (JObj [("title", JStr "A"); ("id", JStr "a")])
  else if String.eqb s "{title:B}" then Some (JObj [("title", JStr "B"); ("id", JStr "b")])
  else if String.eqb s "{}" then Some (JObj [])
  else if String.eqb s "7" then Some (JNum "7")
  else if String.eqb s "'subtitle'" then Some (JStr "subtitle")
  else None.

(** The same decoder when it raises: a line of brackets stands for a text
    nested too deep, a line of nines for a number too long; any other
    text is not JSON. *)
Definition demo_raises (line : string) : exn :=
  let s := Text.strip line in
  if String.eqb s "[[[[[[[[]]]]]]]]"
  then RecursionError "maximum recursion depth exceeded"
  else if String.eqb s "99999999"
  then ValueError "Exceeds the limit for integer string conversion"
  else JSONDecodeError line.

Definition demo_process (lines : list string) (code : Z) (err : string) : Popen :=
  {| pid := 1; p_stdout := lines; p_returncode := code; p_stderr := err;
     exit_delay := Some 2 |}.

Definition demo_env (enum : exn + tool_run) (p : exn + Popen) : environment :=
  {| home := "/home/u";
     json_loads := demo_loads;
     json_loads_raises := demo_raises;
     library_str := fun _ => "library error";
     os_makedirs := fun _ => None;
     tool := fun _ => enum;
     popen := fun _ => p;
     uuid4 := "0000-0001" |}.

Definition enum_ok (out : string) : exn + tool_run :=
  inr {| duration := Some 3;
         completed := {| cp_returncode := 0; cp_stdout := out; cp_stderr := "" |} |}.

Definition two_ids : string := "{id:a}" +:+ nl +:+ nl +:+ "{id:b}" +:+ nl.

Definition playlist : string := "https://www.youtube.com/playlist?list=x".

(** Two videos enumerated, two downloaded, exit code 0. *)
Definition good_process : Popen :=
  demo_process ["{title:A}" +:+ nl; "[download] 50%" +:+ nl; nl;
                "{title:B}" +:+ nl] 0 "".
Definition good_env : environment := demo_env (enum_ok two_ids) (inr good_process).


(** The enumeration runs for 31 time units. *)
Definition slow_run : tool_run :=
  {| duration := Some 31;
     completed := {| cp_returncode := 0; cp_stdout := two_ids; cp_stderr := "" |} |}.
Definition slow_env : environment := demo_env (inr slow_run) (inr good_process).

(** The enumeration prints a line that is not JSON. *)
Definition noisy_run : tool_run :=
  {| duration := Some 3;
     completed := {| cp_returncode := 0;
                     cp_stdout := "{id:a}" +:+ nl +:+ "WARNING: slow";
                     cp_stderr := "" |} |}.
Definition noisy_env : environment := demo_env (inr noisy_run) (inr good_process).

Definition one_session : registry := <["s1" := good_process]> ∅.

(** The downloads directory cannot be made. *)
Definition no_dir_env : environment :=
  {| home := "/home/u";
     json_loads := demo_loads;
     json_loads_raises := demo_raises;
     library_str := fun _ => "library error";
     os_makedirs := fun _ => Some (OSError "read-only file system");
     tool := fun _ => enum_ok two_ids;
     popen := fun _ => inr good_process;
     uuid4 := "0000-0001" |}.

(** The download process cannot be started. *)
Definition no_tool_env : environment :=
  demo_env (enum_ok two_ids) (inl (OSError "yt-dlp: not found")).

(** The enumeration prints a number on a line of its own. *)
Definition number_run : tool_run :=
  {| duration := Some 3;
     completed := {| cp_returncode := 0;
                     cp_stdout := "{id:a}" +:+ nl +:+ "7";
                     cp_stderr := "" |} |}.
Definition number_env : environment :=
  demo_env (inr number_run) (inr good_process).

(** The download prints a number between two records. *)
Definition number_process : Popen :=
  demo_process ["{title:A}" +:+ nl; "7" +:+ nl; "{title:B}" +:+ nl] 0 "".
Definition number_line_env : environment :=
  demo_env (enum_ok two_ids) (inr number_process).

(** The download prints a text nested too deep between two records. *)
Definition deep_line : string := "[[[[[[[[]]]]]]]]" +:+ nl.
Definition deep_process : Popen :=
  demo_process ["{title:A}" +:+ nl; deep_line; "{title:B}" +:+ nl] 0 "".
Definition deep_env : environment :=
  demo_env (enum_ok two_ids) (inr deep_process).


Definition vimeo_query : download_query :=
  {| q_playlist_url := Some "https://vimeo.com/1"; q_format := None |}.

End Demo.

(** ** Vocabulary of the properties *)

Section Vocabulary.

Variable env : environment.

(** The line is not blank: the test [line.strip()] of both loops. *)
Definition nonblank (line : string) : bool := Text.truthy (Text.strip line).

(** The line decodes: it is not blank and [json.loads] returns a value. *)
Definition decodes (line : string) : bool :=
  nonblank line && bool_decide (is_Some (json_loads env line)).

(** The line is a record with a title: it decodes to an object that has
    a member [title]; the result is that member. *)
Definition title_of (line : string) : option json :=
  if nonblank line then
    match json_loads env line with
    | Some (JObj members) => dict_get "title" members
    | _ => None
    end
  else None.

(** The titles of the lines that are records with a title, in order. *)
Fixpoint titles (lines : list string) : list json :=
  match lines with
  | [] => []
  | line :: rest =>
      match title_of line with
      | Some video => video :: titles rest
      | None => titles rest
      end
  end.

(** The line is not JSON: [json.loads] raises [JSONDecodeError] on it. *)
Definition not_json (line : string) : bool :=
  match json_loads env line with
  | Some _ => false
  | None => is_JSONDecodeError (json_loads_raises env line)
  end.

(** The decoder fails on the line: the line is not blank and
    [json.loads] raises on it an exception other than
    [JSONDecodeError]. *)
Definition decoder_fails (line : string) : bool :=
  nonblank line &&
  match json_loads env line with
  | Some _ => false
  | None => negb (is_JSONDecodeError (json_loads_raises env line))
  end.

(** The line stops the loop over the download output with an exception:
    the decoder fails on it, or it decodes to a value on which [in] is not
    defined, or to a string or an array that holds [title] and cannot be
    indexed by it. *)
Definition aborts (line : string) : bool :=
  nonblank line &&
  match json_loads env line with
  | Some v =>
      match py_in "title" v with
      | inl _ => true
      | inr true => bool_decide (¬ is_Some (title_of line))
      | inr false => false
      end
  | None => negb (is_JSONDecodeError (json_loads_raises env line))
  end.

(** The lines the loop over the download output goes through: those
    before the first line that stops it. *)
Fixpoint lines_read (lines : list string) : list string :=
  match lines with
  | [] => []
  | line :: rest => if aborts line then [] else line :: lines_read rest
  end.

(** The [progress] events for a list of titles, when [c] videos were
    completed before: the counter goes [c+1], [c+2], ... *)
Definition progress_events (total c : nat) (titles : list json) : list event :=
  imap (λ i video, EvProgress video (S (c + i)) total) titles.

Definition is_progress (e : event) : bool :=
  match e with EvProgress _ _ _ => true | _ => false end.

(** The count the enumeration step returns (0 when it raises). *)
Definition enumerated (playlist_url : string) (reg : registry) : nat :=
  match out (get_total_videos env playlist_url reg) with
  | Normal n => n
  | _ => 0
  end.

(** The line counts in the enumeration: it is not blank and its decoded
    value contains [id]. *)
Definition has_id (line : string) : bool :=
  nonblank line &&
  match json_loads env line with
  | Some v => match py_in "id" v with inr b => b | inl _ => false end
  | None => false
  end.

(** The line makes the enumeration raise: it is not blank and does not
    decode, or decodes to a value on which [in] is not defined. *)
Definition breaks_enumeration (line : string) : bool :=
  nonblank line &&
  match json_loads env line with
  | Some v => match py_in "id" v with inr _ => false | inl _ => true end
  | None => true
  end.

(** How the generator goes on after the loop over the output, which
    ended as [o]: the wait and the last event, or the event of the
    handler. *)
Definition after_output (p : Popen) (o : outcome nat) : list action :=
  match o with
  | Normal _ =>
      [Wait p None;
       Yield (if (p_returncode p =? 0)%Z then EvComplete
              else EvError ("Download failed: " +:+ p_stderr p))]
  | Raised e => [Yield (EvError (str env e))]
  | Returned => []
  end.

End Vocabulary.

(** The two actions of the [finally] block: the membership test and the
    deletion. *)
Definition cleanup_step (a : action) : bool :=
  match a with
  | SessionsIn _ _ | SessionsDel _ => true
  | _ => false
  end.

Definition adds_session (a : action) : bool :=
  match a with SessionsSet _ _ => true | _ => false end.

Definition starts_download (a : action) : bool :=
  match a with Spawn _ => true | _ => false end.

(** The actions of the [finally] block when the entry is, or is not, in
    the registry. *)
Definition cleanup_actions (session_id : string) (present : bool)
  : list action :=
  SessionsIn session_id present ::
  (if present then [SessionsDel session_id] else []).

(** The last events of a stream. *)
Definition terminal (e : event) : bool :=
  match e with
  | EvComplete | EvError _ => true
  | _ => false
  end.

(** The actions that run the external tool. *)
Definition launches (a : action) : bool :=
  match a with
  | Run _ _ | Spawn _ => true
  | _ => false
  end.

Definition waits (a : action) : bool :=
  match a with Wait _ _ => true | _ => false end.

(** The decoded values on which [in] is not defined. *)
Definition scalar (v : json) : bool :=
  match v with
  | JNull | JBool _ | JNum _ => true
  | _ => false
  end.

(** Scan of a trace: [registered] tells whether the session id is in the
    registry, as far as the actions of the trace go; the result is false
    when a [progress] event is yielded while it is not. *)
Fixpoint progress_while_registered (session_id : string) (registered : bool)
  (t : list action) : bool :=
  match t with
  | [] => true
  | SessionsSet s _ :: t' =>
      progress_while_registered session_id
        (registered || String.eqb s session_id) t'
  | SessionsDel s :: t' =>
      progress_while_registered session_id
        (registered && negb (String.eqb s session_id)) t'
  | Yield (EvProgress _ _ _) :: t' =>
      registered && progress_while_registered session_id registered t'
  | _ :: t' => progress_while_registered session_id registered t'
  end.

(** The ids of the answer of [list_sessions]. *)
Definition active_sessions (answer : json) : list string :=
  match answer with
  | JObj [("active_sessions", JArr items)] =>
      omap (fun x => match x with JStr s => Some s | _ => None end) items
  | _ => []
  end.

(** ** Reasoning about programs of the monad *)

Example strip_ex : Text.strip "  ab c
" = "ab c".
Proof. reflexivity. Qed.

Example splitlines_ex :
  Text.splitlines ("a" +:+ String "010" ("" +:+ String "010" "b" +:+ String "013" (String "010" "c")))
  = ["a"; ""; "b"; "c"].
Proof. reflexivity. Qed.


Ltac prog_unfold :=
  unfold mbind, mret, prog_mbind, prog_mret, prog_bind, prog_ret,
    try_except, try_finally, lift, emit, yield, raise, return_.

Ltac prog_simpl := prog_unfold; cbn.

Lemma events_app (t1 t2 : list action) :
  events (t1 ++ t2) = events t1 ++ events t2.
Proof.
  induction t1 as [|a t1 IH]; [done|].
  destruct a; cbn; rewrite ?IH; done.
Qed.

Lemma events_yields (evs : list event) : events (Yield <$> evs) = evs.
Proof. induction evs as [|e evs IH]; cbn; [done|]. by rewrite IH. Qed.

Lemma bind_normal {A B} (m : prog A) (f : A -> prog B) reg t reg' a :
  m reg = Result t reg' (Normal a) ->
  (m ≫= f) reg =
  Result (t ++ trace (f a reg')) (sessions (f a reg')) (out (f a reg')).
Proof. intros H. prog_unfold. rewrite H. by destruct (f a reg'). Qed.

Lemma bind_raised {A B} (m : prog A) (f : A -> prog B) reg t reg' e :
  m reg = Result t reg' (Raised e) ->
  (m ≫= f) reg = Result t reg' (Raised e).
Proof. intros H. prog_unfold. by rewrite H. Qed.

Lemma progress_events_cons (total c : nat) (video : json) (titles : list json) :
  progress_events total c (video :: titles) =
  EvProgress video (S c) total :: progress_events total (S c) titles.
Proof.
  unfold progress_events. rewrite imap_cons, Nat.add_0_r. f_equal.
  apply imap_ext. intros i x _. cbn. f_equal. lia.
Qed.

Lemma filter_progress_events (total c : nat) (titles : list json) :
  List.filter is_progress (progress_events total c titles) =
  progress_events total c titles.
Proof.
  revert c. induction titles as [|video titles IH]; intros c; [done|].
  rewrite progress_events_cons. cbn. by rewrite IH.
Qed.

Section Translator.

Variable env : environment.

(** What the body of the loop does with one line, case by case. *)
Lemma translate_line_unfold (total c : nat) (line : string) (reg : registry) :
  translate_line env total c line reg =
  if Text.truthy (Text.strip line) then
    match json_loads env line with
    | None =>
        if is_JSONDecodeError (json_loads_raises env line)
        then Result [] reg (Normal c)
        else Result [] reg (Raised (json_loads_raises env line))
    | Some v =>
        match py_in "title" v with
        | inl e => Result [] reg (Raised e)
        | inr false => Result [] reg (Normal c)
        | inr true =>
            match py_getitem v "title" with
            | inl e => Result [] reg (Raised e)
            | inr video =>
                Result [Yield (EvProgress video (S c) total)] reg (Normal (S c))
            end
        end
    end
  else Result [] reg (Normal c).
Proof.
  unfold translate_line, loads.
  destruct (Text.truthy (Text.strip line)); [|done].
  destruct (json_loads env line) as [v|].
  2:{ prog_simpl. by destruct (is_JSONDecodeError (json_loads_raises env line)). }
  destruct v; prog_simpl; try done.
  - by destruct (Text.contains "title" s).
  - by destruct (existsb _ items).
  - by destruct (dict_get "title" members).
Qed.

Lemma translate_line_title total c line reg video :
  title_of env line = Some video ->
  translate_line env total c line reg =
  Result [Yield (EvProgress video (S c) total)] reg (Normal (S c)).
Proof.
  rewrite translate_line_unfold. unfold title_of, nonblank.
  destruct (Text.truthy (Text.strip line)); [|done].
  destruct (json_loads env line) as [[| | | | |members]|]; try done.
  cbn. intros ->. done.
Qed.

Lemma translate_line_skip total c line reg :
  title_of env line = None -> aborts env line = false ->
  translate_line env total c line reg = Result [] reg (Normal c).
Proof.
  rewrite translate_line_unfold. unfold aborts, title_of, nonblank.
  destruct (Text.truthy (Text.strip line)); [|done].
  destruct (json_loads env line) as [v|].
  2:{ cbn. by destruct (is_JSONDecodeError (json_loads_raises env line)). }
  destruct v as [| | | |items|members]; cbn; try done.
  - by destruct (Text.contains "title" s).
  - by destruct (existsb _ items).
  - by intros ->.
Qed.

Lemma translate_line_abort total c line reg :
  aborts env line = true ->
  exists e, translate_line env total c line reg = Result [] reg (Raised e).
Proof.
  rewrite translate_line_unfold. unfold aborts, title_of, nonblank.
  destruct (Text.truthy (Text.strip line)); [|done].
  destruct (json_loads env line) as [v|].
  2:{ cbn. destruct (is_JSONDecodeError (json_loads_raises env line));
        [done|eauto]. }
  destruct v as [| | | |items|members]; cbn; eauto.
  - destruct (Text.contains "title" s); [eauto|done].
  - destruct (existsb _ items); [eauto|done].
  - by destruct (dict_get "title" members).
Qed.

(** A line either reports a title, or is skipped, or stops the loop. *)
Lemma title_or_not line :
  (exists video, title_of env line = Some video /\ aborts env line = false)
  \/ (title_of env line = None /\ aborts env line = false)
  \/ (title_of env line = None /\ aborts env line = true).
Proof.
  unfold aborts, title_of.
  destruct (nonblank line); cbn; [|by right; left].
  destruct (json_loads env line) as [v|].
  2:{ destruct (is_JSONDecodeError (json_loads_raises env line));
        [by right; left|by right; right]. }
  destruct v as [| | | |items|members]; cbn;
    try (by right; right); try (by right; left).
  - destruct (Text.contains "title" s); [by right; right|by right; left].
  - destruct (existsb _ items); [by right; right|by right; left].
  - destruct (dict_get "title" members) as [x|]; cbn;
      [left; by exists x|by right; left].
Qed.

(** The loop over the output of the download process.  Whatever the
    lines are, it yields [progress] events only, numbered from the counter
    on, leaves the registry alone, and ends normally with the counter
    advanced by their number or with an exception; it never returns from
    the generator. *)
Lemma read_output_spec total lines c reg :
  exists titles o,
    read_output env total lines c reg =
    Result (Yield <$> progress_events total c titles) reg o
    /\ (o = Normal (c + length titles) \/ exists e, o = Raised e).
Proof.
  revert c. induction lines as [|line rest IH]; intros c.
  - exists [], (Normal c). cbn. split; [done|]. left. f_equal. lia.
  - cbn [read_output].
    destruct (title_or_not line) as [(video & Ht & _)|[[Ht Ha]|[Ht Ha]]].
    + destruct (IH (S c)) as (titles & o & Hrun & Ho).
      exists (video :: titles), o.
      rewrite (bind_normal _ _ _ _ _ _ (translate_line_title total c line reg video Ht)).
      rewrite Hrun. cbn [trace sessions out]. rewrite progress_events_cons.
      split; [done|]. destruct Ho as [->|?]; [left|by right].
      cbn. f_equal. lia.
    + destruct (IH c) as (titles & o & Hrun & Ho).
      exists titles, o.
      rewrite (bind_normal _ _ _ _ _ _ (translate_line_skip total c line reg Ht Ha)).
      rewrite Hrun. done.
    + destruct (translate_line_abort total c line reg Ha) as [e He].
      exists [], (Raised e).
      rewrite (bind_raised _ _ _ _ _ _ He). split; [done|]. right. by exists e.
Qed.

(** When no line stops the loop, its events are those of the lines that
    are records with a title, in order. *)
Lemma read_output_clean total lines c reg :
  forallb (fun line => negb (aborts env line)) lines = true ->
  read_output env total lines c reg =
  Result (Yield <$> progress_events total c (titles env lines)) reg
    (Normal (c + length (titles env lines))).
Proof.
  revert c. induction lines as [|line rest IH]; intros c Hclean.
  - cbn. by rewrite Nat.add_0_r.
  - cbn [read_output]. cbn in Hclean.
    apply andb_prop in Hclean as [Ha Hrest]. apply negb_true_iff in Ha.
    cbn [titles]. destruct (title_of env line) as [video|] eqn:Ht.
    + rewrite (bind_normal _ _ _ _ _ _ (translate_line_title total c line reg video Ht)).
      rewrite (IH (S c) Hrest). cbn [trace sessions out].
      rewrite progress_events_cons. cbn. by rewrite Nat.add_succ_r.
    + rewrite (bind_normal _ _ _ _ _ _ (translate_line_skip total c line reg Ht Ha)).
      rewrite (IH c Hrest). done.
Qed.

End Translator.

(** ** The enumeration step *)

Section Enumeration.

Variable env : environment.

Lemma count_ids_ok lines reg :
  existsb (breaks_enumeration env) lines = false ->
  count_ids env lines reg =
  Result [] reg (Normal (length (List.filter (has_id env) lines))).
Proof.
  induction lines as [|line rest IH]; [done|].
  cbn [existsb List.filter count_ids]. intros H.
  apply orb_false_elim in H as [Hline Hrest]. specialize (IH Hrest).
  revert Hline. unfold breaks_enumeration, has_id, nonblank, loads.
  destruct (Text.truthy (Text.strip line)); cbn; [|done].
  destruct (json_loads env line) as [v|]; [|done].
  destruct (py_in "id" v) as [e|b] eqn:Hin; [done|]. intros _.
  prog_simpl. rewrite Hin. cbn. rewrite IH. cbn.
  by destruct b.
Qed.

Lemma count_ids_fail lines reg :
  existsb (breaks_enumeration env) lines = true ->
  exists e, count_ids env lines reg = Result [] reg (Raised e).
Proof.
  induction lines as [|line rest IH]; [done|].
  cbn [existsb count_ids]. unfold breaks_enumeration at 1, nonblank, loads.
  destruct (Text.truthy (Text.strip line)); cbn; [|done].
  destruct (json_loads env line) as [v|]; [|by eexists].
  destruct (py_in "id" v) as [e|b] eqn:Hin.
  - intros _. exists e. prog_simpl. by rewrite Hin.
  - cbn. intros H. destruct (IH H) as [e He]. exists e.
    prog_simpl. rewrite Hin. cbn. by rewrite He.
Qed.

(** The counting loop neither acts nor returns from a generator, and
    does not depend on the registry. *)
Lemma count_ids_pure lines :
  exists o, o <> Returned /\
            forall reg : registry, count_ids env lines reg = Result [] reg o.
Proof.
  induction lines as [|line rest (o & Ho & IH)].
  - by exists (Normal 0).
  - cbn [count_ids]. unfold loads.
    destruct (Text.truthy (Text.strip line)); [|by exists o].
    destruct (json_loads env line) as [v|].
    + destruct (py_in "id" v) as [e|b] eqn:Hin.
      * exists (Raised e). split; [done|]. intros reg.
        prog_simpl. by rewrite Hin.
      * destruct o as [n| |e]; [|done|].
        -- exists (Normal ((if b then 1 else 0) + n)). split; [done|].
           intros reg. prog_simpl. rewrite Hin. cbn. by rewrite IH.
        -- exists (Raised e). split; [done|].
           intros reg. prog_simpl. rewrite Hin. cbn. by rewrite IH.
    + by exists (Raised (json_loads_raises env line)).
Qed.

(** [get_total_videos] runs the tool once, prints when it fails, leaves
    the registry alone and does not depend on it. *)
Lemma get_total_videos_pure url :
  exists t o,
    o <> Returned
    /\ Forall (fun a => match a with Run _ _ | Print _ => True | _ => False end) t
    /\ forall reg : registry, get_total_videos env url reg = Result t reg o.
Proof.
  unfold get_total_videos, subprocess_run.
  set (command := enumerate_command url).
  destruct (tool env command) as [e|r] eqn:Htool.
  - eexists _, (Raised e). split; [done|]. split; [|intros reg; by prog_simpl].
    repeat constructor.
  - destruct (finishes_within 30 r) eqn:Hle.
    + idtac.
      * destruct (cp_returncode (completed r) =? 0)%Z eqn:Hrc.
        -- destruct (count_ids_pure (Text.splitlines (cp_stdout (completed r))))
             as (o & Ho & Hcount).
           destruct o as [n| |e]; [|done|].
           ++ eexists _, (Normal n). split; [done|].
              split; [|intros reg; prog_simpl; rewrite Hrc; cbn; rewrite Hcount; by cbn].
              repeat constructor.
           ++ eexists _, (Raised e). split; [done|].
              split; [|intros reg; prog_simpl; rewrite Hrc; cbn; rewrite Hcount; by cbn].
              repeat constructor.
        -- eexists _, (Raised _). split; [done|].
           split; [|intros reg; prog_simpl; rewrite Hrc; by cbn].
           repeat constructor.
    + eexists _, (Raised _). split; [done|].
      split; [|intros reg; by prog_simpl]. repeat constructor.
Qed.

End Enumeration.

(** ** The generator, path by path *)

Section Generator.

Variable env : environment.

(** The [try] block with its handler, as one equation: every path of
    lines 60 to 129 with its trace, its registry and the way it ends. *)
Lemma stream_try_unfold url fmt sid (reg : registry) :
  stream_try env url fmt sid reg =
  if validate_youtube_url url then
    match os_makedirs env (DOWNLOADS_DIR env) with
    | Some e =>
        Result [Makedirs (DOWNLOADS_DIR env); Yield (EvError (str env e))]
          reg (Normal tt)
    | None =>
        let g := get_total_videos env url reg in
        match out g with
        | Raised e =>
            Result (Makedirs (DOWNLOADS_DIR env) :: trace g ++
                    [Yield (EvError ("Failed to get playlist info: " +:+ str env e))])
              reg Returned
        | Returned => Result (Makedirs (DOWNLOADS_DIR env) :: trace g) reg Returned
        | Normal n =>
            let command := download_command env url fmt in
            match popen env command with
            | inl e =>
                Result (Makedirs (DOWNLOADS_DIR env) :: trace g ++
                        [Yield (EvTotal n); Spawn command;
                         Yield (EvError (str env e))])
                  reg (Normal tt)
            | inr p =>
                let l := read_output env n (p_stdout p) 0 (<[sid := p]> reg) in
                Result (Makedirs (DOWNLOADS_DIR env) :: trace g ++
                        [Yield (EvTotal n); Spawn command; SessionsSet sid p] ++
                        trace l ++ after_output env p (out l))
                  (<[sid := p]> reg) (Normal tt)
            end
        end
    end
  else Result [Yield (EvError "Invalid YouTube URL")] reg Returned.
Proof.
  destruct (get_total_videos_pure env url) as (t & o & Ho & _ & Hg).
  unfold stream_try, stream_body, makedirs, subprocess_Popen, sessions_setitem,
    process_wait.
  destruct (validate_youtube_url url); [|by prog_simpl].
  cbn [negb].
  assert (HL : forall n p, exists titles ol,
             read_output env n (p_stdout p) 0 (<[sid := p]> reg) =
             Result (Yield <$> progress_events n 0 titles) (<[sid := p]> reg) ol
             /\ ol <> Returned).
  { intros n p.
    destruct (read_output_spec env n (p_stdout p) 0 (<[sid := p]> reg))
      as (titles & ol & Hrun & Hol).
    exists titles, ol. split; [done|]. by destruct Hol as [->|[e ->]]. }
  revert HL. generalize (read_output env). intros L HL.
  rewrite (Hg reg). revert Hg. generalize (get_total_videos env url).
  intros g Hg.
  generalize (DOWNLOADS_DIR env). intros dir.
  generalize (download_command env url fmt). intros command.
  destruct (os_makedirs env dir) as [e|]; [by prog_simpl|].
  cbn [trace out].
  destruct o as [n| |e]; [|done|].
  - destruct (popen env command) as [e|p] eqn:Hp.
    + prog_simpl. rewrite Hg. cbn. by rewrite <- !app_assoc.
    + destruct (HL n p) as (titles & ol & Hrun & Hol).
      cbn zeta. rewrite Hrun. cbn [trace out].
      prog_simpl. rewrite Hg. cbn. rewrite Hrun.
      destruct ol as [c| |e]; [|done|]; cbn.
      * destruct (p_returncode p =? 0)%Z; cbn;
          rewrite <- ?app_assoc; cbn; by rewrite <- ?app_assoc.
      * rewrite <- ?app_assoc; cbn; by rewrite <- ?app_assoc.
  - prog_simpl. rewrite Hg. cbn. by rewrite <- ?app_assoc.
Qed.

Lemma stream_cleanup_unfold sid (reg : registry) :
  stream_cleanup sid reg =
  Result (cleanup_actions sid (bool_decide (is_Some (reg !! sid))))
    (delete sid reg) (Normal tt).
Proof.
  unfold stream_cleanup, sessions_contains, sessions_delitem, cleanup_actions.
  prog_simpl. destruct (reg !! sid) as [p|] eqn:Hreg; cbn.
  - rewrite Hreg. done.
  - by rewrite delete_id.
Qed.

(** The whole generator: the [try] block, then the [finally] block. *)
Lemma stream_unfold url fmt sid (reg : registry) :
  let b := stream_try env url fmt sid reg in
  stream_playlist_download env url fmt sid reg =
  Result (trace b ++
          cleanup_actions sid (bool_decide (is_Some (sessions b !! sid))))
    (delete sid (sessions b)) (out b).
Proof.
  cbn zeta. unfold stream_playlist_download, try_finally.
  destruct (stream_try env url fmt sid reg) as [t reg' o].
  rewrite stream_cleanup_unfold. done.
Qed.

Lemma enumeration_silent url (reg : registry) :
  let g := get_total_videos env url reg in
  events (trace g) = [] /\ sessions g = reg /\ out g <> Returned
  /\ Forall (fun a => cleanup_step a = false /\ adds_session a = false
                      /\ starts_download a = false) (trace g).
Proof.
  destruct (get_total_videos_pure env url) as (t & o & Ho & Ht & Hg).
  cbn zeta. rewrite Hg. cbn. split; [|split; [done|split; [done|]]].
  - clear Hg. induction Ht as [|a t Ha _ IH]; [done|].
    destruct a; try done.
  - eapply Forall_impl; [exact Ht|]. intros a Ha. by destruct a.
Qed.

Lemma output_trace n lines c (reg : registry) :
  let l := read_output env n lines c reg in
  exists videos,
    trace l = Yield <$> progress_events n c videos
    /\ sessions l = reg /\ out l <> Returned.
Proof.
  destruct (read_output_spec env n lines c reg) as (videos & o & Hrun & Ho).
  cbn zeta. rewrite Hrun. exists videos. split; [done|]. split; [done|].
  by destruct Ho as [->|[e ->]].
Qed.

End Generator.

(** ** The properties of the specification *)

Section Runs.

Variable env : environment.

(** A run that reaches the download: its full trace. *)
Lemma stream_started url fmt sid (reg : registry) n p :
  validate_youtube_url url = true ->
  os_makedirs env (DOWNLOADS_DIR env) = None ->
  out (get_total_videos env url reg) = Normal n ->
  popen env (download_command env url fmt) = inr p ->
  let g := get_total_videos env url reg in
  let l := read_output env n (p_stdout p) 0 (<[sid := p]> reg) in
  stream_playlist_download env url fmt sid reg =
  Result ((Makedirs (DOWNLOADS_DIR env) :: trace g ++
           [Yield (EvTotal n); Spawn (download_command env url fmt);
            SessionsSet sid p] ++ trace l ++ after_output env p (out l))
          ++ [SessionsIn sid true; SessionsDel sid])
    (delete sid reg) (Normal tt).
Proof.
  intros Hurl Hmk Hn Hp. cbn zeta.
  rewrite stream_unfold, stream_try_unfold, Hurl, Hmk. cbn zeta.
  rewrite Hn, Hp. cbn [trace sessions out].
  rewrite lookup_insert_eq, delete_insert_eq. done.
Qed.

Lemma stream_started_events url fmt sid (reg : registry) n p :
  validate_youtube_url url = true ->
  os_makedirs env (DOWNLOADS_DIR env) = None ->
  out (get_total_videos env url reg) = Normal n ->
  popen env (download_command env url fmt) = inr p ->
  let l := read_output env n (p_stdout p) 0 (<[sid := p]> reg) in
  events (trace (stream_playlist_download env url fmt sid reg)) =
  EvTotal n :: events (trace l) ++ events (after_output env p (out l)).
Proof.
  intros Hurl Hmk Hn Hp. cbn zeta.
  rewrite (stream_started url fmt sid reg n p Hurl Hmk Hn Hp).
  cbn [trace]. rewrite events_app. cbn [events].
  rewrite !events_app.
  destruct (enumeration_silent env url reg) as (-> & _).
  cbn. by rewrite app_nil_r.
Qed.

(** When every line that decodes is a record with a title and the
    decoder fails on no line, no line stops the loop and the titles are as
    many as the lines that decode. *)
Lemma records_with_title lines :
  forallb (fun line => implb (decodes env line)
                         (bool_decide (is_Some (title_of env line))))
    lines = true ->
  forallb (fun line => negb (decoder_fails env line)) lines = true ->
  forallb (fun line => negb (aborts env line)) lines = true
  /\ length (titles env lines) = length (List.filter (decodes env) lines).
Proof.
  induction lines as [|line rest IH]; [done|].
  cbn [forallb List.filter titles]. intros H Hf.
  apply andb_prop in H as [Hline Hrest].
  apply andb_prop in Hf as [Hfline Hfrest].
  destruct (IH Hrest Hfrest) as [IH1 IH2].
  rewrite IH1, andb_true_r.
  destruct (title_or_not env line) as [(video & Ht & Ha)|[[Ht Ha]|[Ht Ha]]];
    rewrite Ht, Ha in *; cbn.
  - assert (decodes env line = true) as ->; [|cbn; by rewrite IH2].
    revert Ht. unfold title_of, decodes.
    destruct (nonblank line); [|done].
    by destruct (json_loads env line).
  - split; [done|].
    destruct (decodes env line); [done|]. done.
  - revert Ha Hline Hfline. unfold aborts, decodes, decoder_fails.
    destruct (nonblank line); [|done].
    destruct (json_loads env line); [done|]. cbn.
    by destruct (is_JSONDecodeError (json_loads_raises env line)).
Qed.





(** C1.  A successful run: the address is accepted, the downloads
    directory is there, the enumeration reports [N] items, the download
    process starts, the lines of its output that decode are [N] in number
    and each is a record with a title, the decoder fails on none of the
    other lines (they are blank or not JSON), and the process exits with
    code 0.  Then the generator yields exactly: [total] with [N]; [N]
    [progress] events whose [completed] field is 1, 2, ..., [N] and whose
    [total] field is [N]; [complete].  It ends normally and the registry
    then has no entry for the session id. *)
Theorem successful_run_events url fmt sid (reg : registry) (N : nat) (p : Popen) :
  validate_youtube_url url = true ->
  os_makedirs env (DOWNLOADS_DIR env) = None ->
  out (get_total_videos env url reg) = Normal N ->
  popen env (download_command env url fmt) = inr p ->
  forallb (fun line => implb (decodes env line)
                         (bool_decide (is_Some (title_of env line))))
    (p_stdout p) = true ->
  length (List.filter (decodes env) (p_stdout p)) = N ->
  forallb (fun line => negb (decoder_fails env line)) (p_stdout p) = true ->
  p_returncode p = 0%Z ->
  let r := stream_playlist_download env url fmt sid reg in
  exists videos : list json,
    length videos = N
    /\ events (trace r) =
       EvTotal N :: imap (fun i video => EvProgress video (S i) N) videos
       ++ [EvComplete]
    /\ out r = Normal tt
    /\ sessions r !! sid = None.
Proof.
  intros Hurl Hmk Hn Hp Hrec Hlen Hfail Hrc. cbn zeta.
  destruct (records_with_title _ Hrec Hfail) as [Hclean Htitles].
  exists (titles env (p_stdout p)). split; [congruence|].
  rewrite (stream_started_events url fmt sid reg N p Hurl Hmk Hn Hp).
  rewrite (stream_started url fmt sid reg N p Hurl Hmk Hn Hp).
  rewrite (read_output_clean env N _ 0 _ Hclean). cbn [trace sessions out].
  rewrite events_yields. unfold after_output. rewrite Hrc. cbn.
  split; [done|]. split; [done|]. apply lookup_delete_eq.
Qed.


Lemma quiet_trace (t : list action) :
  Forall (fun a => cleanup_step a = false /\ adds_session a = false
                   /\ starts_download a = false) t ->
  forallb (fun a => negb (cleanup_step a)) t = true
  /\ existsb adds_session t = false
  /\ existsb starts_download t = false.
Proof.
  induction 1 as [|a t (Ha1 & Ha2 & Ha3) _ (IH1 & IH2 & IH3)]; [done|].
  cbn. by rewrite Ha1, Ha2, Ha3, IH1, IH2, IH3.
Qed.

Lemma yields_quiet (evs : list event) :
  Forall (fun a => cleanup_step a = false /\ adds_session a = false
                   /\ starts_download a = false) (Yield <$> evs).
Proof. induction evs; constructor; done. Qed.

Lemma after_output_quiet p o :
  Forall (fun a => cleanup_step a = false /\ adds_session a = false
                   /\ starts_download a = false) (after_output env p o).
Proof. destruct o; repeat constructor. Qed.

(** C3.  Whatever the arguments, the environment and the registry, the
    trace of the generator is the trace of its [try] block followed by the
    cleanup, which is its last action and occurs nowhere before: the test
    whether the session id is in the registry and, when it is, its
    deletion.  The id is there exactly when it was there at the start or
    the run registered its process.  Afterwards the registry is the
    initial one without the id, so it holds no entry for the finished
    stream; and the generator does not end with an exception. *)
Theorem cleanup_on_every_path url fmt sid (reg : registry) :
  let r := stream_playlist_download env url fmt sid reg in
  exists (before : list action) (present : bool),
    trace r = before ++ cleanup_actions sid present
    /\ forallb (fun a => negb (cleanup_step a)) before = true
    /\ present = bool_decide (is_Some (reg !! sid)) || existsb adds_session before
    /\ sessions r = delete sid reg
    /\ sessions r !! sid = None
    /\ (forall e, out r <> Raised e).
Proof.
  cbn zeta. rewrite stream_unfold. cbn zeta. cbn [trace sessions out].
  exists (trace (stream_try env url fmt sid reg)).
  exists (bool_decide (is_Some (sessions (stream_try env url fmt sid reg) !! sid))).
  split; [done|].
  rewrite stream_try_unfold.
  destruct (enumeration_silent env url reg) as (_ & _ & Hg & Hquiet).
  apply quiet_trace in Hquiet as (Hq1 & Hq2 & Hq3).
  destruct (validate_youtube_url url).
  2:{ cbn. rewrite orb_false_r, lookup_delete_eq. done. }
  destruct (os_makedirs env (DOWNLOADS_DIR env)) as [e|].
  { cbn. rewrite orb_false_r, lookup_delete_eq. done. }
  cbn zeta. destruct (out (get_total_videos env url reg)) as [n| |e]; [|done|].
  - destruct (popen env (download_command env url fmt)) as [e|p].
    + cbn [trace sessions out forallb existsb adds_session cleanup_step negb].
      rewrite forallb_app, existsb_app, Hq1, Hq2. cbn.
      rewrite orb_false_r, lookup_delete_eq. done.
    + cbn [trace sessions out forallb existsb adds_session cleanup_step negb].
      destruct (output_trace env n (p_stdout p) 0 (<[sid := p]> reg))
        as (videos & Hl & _ & _).
      cbn zeta in Hl. rewrite Hl.
      destruct (quiet_trace _ (yields_quiet (progress_events n 0 videos)))
        as (Hy1 & _).
      destruct (quiet_trace _ (after_output_quiet p
                  (out (read_output env n (p_stdout p) 0 (<[sid := p]> reg)))))
        as (Ha1 & _).
      rewrite !forallb_app, !existsb_app, Hq1, Hy1, Ha1. cbn.
      rewrite lookup_insert_eq, delete_insert_eq, lookup_delete_eq.
      rewrite !orb_true_r.
      repeat split; done.
  - cbn [trace sessions out forallb existsb adds_session cleanup_step negb].
    rewrite forallb_app, existsb_app, Hq1, Hq2. cbn.
    rewrite orb_false_r, lookup_delete_eq. done.
Qed.

(** C6.  When the address does not match the pattern, the generator
    yields the one event [error: Invalid YouTube URL] and returns; its
    only other action is the test of the cleanup; nothing is ever stored
    in the registry, which ends as the initial one without the id. *)
Theorem invalid_url_single_error url fmt sid (reg : registry) :
  validate_youtube_url url = false ->
  let r := stream_playlist_download env url fmt sid reg in
  events (trace r) = [EvError "Invalid YouTube URL"]
  /\ out r = Returned
  /\ existsb adds_session (trace r) = false
  /\ existsb starts_download (trace r) = false
  /\ sessions r = delete sid reg
  /\ sessions r ⊆ reg.
Proof.
  intros Hurl. cbn zeta. rewrite stream_unfold. cbn zeta.
  rewrite stream_try_unfold, Hurl. cbn [trace sessions out].
  repeat split; try done.
  - unfold cleanup_actions. by destruct (bool_decide _).
  - unfold cleanup_actions. by destruct (bool_decide _).
  - unfold cleanup_actions. by destruct (bool_decide _).
  - apply delete_subseteq.
Qed.

(** C7.  When the enumeration fails (the tool run by [get_total_videos]
    does not end within 30 time units, or ends with a code other than 0),
    the generator yields the one event [error: Failed to get playlist
    info: ...] and returns: the download process is never started and
    nothing is stored in the registry. *)
Theorem enumeration_failure_aborts url fmt sid (reg : registry) (run : tool_run) :
  validate_youtube_url url = true ->
  os_makedirs env (DOWNLOADS_DIR env) = None ->
  tool env (enumerate_command url) = inr run ->
  finishes_within 30 run = false \/ cp_returncode (completed run) <> 0%Z ->
  let r := stream_playlist_download env url fmt sid reg in
  (exists text,
      events (trace r) = [EvError ("Failed to get playlist info: " +:+ text)])
  /\ out r = Returned
  /\ existsb starts_download (trace r) = false
  /\ existsb adds_session (trace r) = false
  /\ sessions r = delete sid reg.
Proof.
  intros Hurl Hmk Htool Hfail. cbn zeta.
  assert (exists e, out (get_total_videos env url reg) = Raised e) as [e He].
  { unfold get_total_videos, subprocess_run. prog_simpl. rewrite Htool.
    destruct (finishes_within 30 run); cbn; [|by eexists].
    destruct Hfail as [|Hrc]; [done|].
    apply Z.eqb_neq in Hrc. rewrite Hrc. cbn. by eexists. }
  rewrite stream_unfold. cbn zeta. rewrite stream_try_unfold, Hurl, Hmk.
  cbn zeta. rewrite He. cbn [trace sessions out].
  destruct (enumeration_silent env url reg) as (Hev & _ & _ & Hquiet).
  apply quiet_trace in Hquiet as (Hq1 & Hq2 & Hq3).
  split; [|split; [done|split; [|split; [|done]]]].
  - exists (str env e). cbn [events app].
    rewrite !events_app, Hev. cbn.
    unfold cleanup_actions. by destruct (bool_decide _).
  - cbn. rewrite !existsb_app, Hq3. cbn.
    unfold cleanup_actions. by destruct (bool_decide _).
  - cbn. rewrite !existsb_app, Hq2. cbn.
    unfold cleanup_actions. by destruct (bool_decide _).
Qed.

Lemma cleanup_events sid present : events (cleanup_actions sid present) = [].
Proof. by destruct present. Qed.

(** The events of a run, path by path. *)
Lemma stream_events url fmt sid (reg : registry) :
  events (trace (stream_playlist_download env url fmt sid reg)) =
  if validate_youtube_url url then
    match os_makedirs env (DOWNLOADS_DIR env) with
    | Some e => [EvError (str env e)]
    | None =>
        match out (get_total_videos env url reg) with
        | Raised e => [EvError ("Failed to get playlist info: " +:+ str env e)]
        | Returned => []
        | Normal n =>
            match popen env (download_command env url fmt) with
            | inl e => [EvTotal n; EvError (str env e)]
            | inr p =>
                let l := read_output env n (p_stdout p) 0 (<[sid := p]> reg) in
                EvTotal n :: events (trace l)
                ++ events (after_output env p (out l))
            end
        end
    end
  else [EvError "Invalid YouTube URL"].
Proof.
  rewrite stream_unfold. cbn zeta. cbn [trace].
  rewrite events_app, cleanup_events, app_nil_r, stream_try_unfold.
  destruct (enumeration_silent env url reg) as (Hev & _).
  destruct (validate_youtube_url url); [|done].
  destruct (os_makedirs env (DOWNLOADS_DIR env)); [done|].
  cbn zeta. destruct (out (get_total_videos env url reg)) as [n| |e].
  - destruct (popen env (download_command env url fmt)) as [e|p];
      cbn [trace events]; rewrite !events_app, Hev; done.
  - cbn [trace events]. by rewrite Hev.
  - cbn [trace events]. by rewrite events_app, Hev.
Qed.

Lemma get_total_videos_counts url (reg : registry) run :
  tool env (enumerate_command url) = inr run ->
  finishes_within 30 run = true ->
  cp_returncode (completed run) = 0%Z ->
  existsb (breaks_enumeration env)
    (Text.splitlines (cp_stdout (completed run))) = false ->
  get_total_videos env url reg =
  Result [Run (enumerate_command url) 30] reg
    (Normal (length (List.filter (has_id env)
                       (Text.splitlines (cp_stdout (completed run)))))).
Proof.
  intros Htool Hfin Hrc Hok.
  unfold get_total_videos, subprocess_run. prog_simpl.
  rewrite Htool, Hfin. cbn. rewrite Hrc. cbn.
  by rewrite (count_ids_ok env _ _ Hok).
Qed.

Lemma get_total_videos_bad_line url (reg : registry) run :
  tool env (enumerate_command url) = inr run ->
  existsb (breaks_enumeration env)
    (Text.splitlines (cp_stdout (completed run))) = true ->
  exists e, out (get_total_videos env url reg) = Raised e.
Proof.
  intros Htool Hbad.
  unfold get_total_videos, subprocess_run. prog_simpl. rewrite Htool.
  destruct (finishes_within 30 run); cbn; [|by eexists].
  destruct (cp_returncode (completed run) =? 0)%Z; cbn; [|by eexists].
  destruct (count_ids_fail env _ reg Hbad) as [e He]. rewrite He. cbn.
  by eexists.
Qed.

(** C9.  The enumeration is strict where the translator is lenient.  Let
    the tool run by [get_total_videos] have produced some output.
    (1) If one of its lines is not blank and [json.loads] raises on it,
    [get_total_videos] raises; a run of the generator that reaches the
    enumeration then yields the one event [error: Failed to get playlist
    info: ...] and never starts the download; when the line is not JSON
    (the exception is [JSONDecodeError]) the translator, given the same
    line, skips it and goes on.  (2) Whenever [get_total_videos]
    returns, its result is the number of lines that are not blank and
    whose decoded value contains [id]; and it does return that number when
    the tool ends in time with code 0 and no line breaks the count. *)
Theorem enumeration_strict_on_bad_lines url fmt sid (reg : registry)
  (run : tool_run) :
  tool env (enumerate_command url) = inr run ->
  let lines := Text.splitlines (cp_stdout (completed run)) in
  let r := stream_playlist_download env url fmt sid reg in
  (forall line,
      In line lines -> nonblank line = true -> json_loads env line = None ->
      (exists e, out (get_total_videos env url reg) = Raised e)
      /\ (validate_youtube_url url = true ->
          os_makedirs env (DOWNLOADS_DIR env) = None ->
          (exists text,
              events (trace r) =
              [EvError ("Failed to get playlist info: " +:+ text)])
          /\ existsb starts_download (trace r) = false)
      /\ (is_JSONDecodeError (json_loads_raises env line) = true ->
          forall total c (reg' : registry),
            translate_line env total c line reg' = Result [] reg' (Normal c)))
  /\ (forall n,
        out (get_total_videos env url reg) = Normal n ->
        n = length (List.filter (has_id env) lines))
  /\ (finishes_within 30 run = true ->
      cp_returncode (completed run) = 0%Z ->
      existsb (breaks_enumeration env) lines = false ->
      out (get_total_videos env url reg) =
      Normal (length (List.filter (has_id env) lines))).
Proof.
  intros Htool. cbn zeta. split; [|split].
  - intros line Hin Hnb Hdec.
    assert (Hbad : existsb (breaks_enumeration env)
                     (Text.splitlines (cp_stdout (completed run))) = true).
    { apply existsb_exists. exists line. split; [done|].
      unfold breaks_enumeration. by rewrite Hnb, Hdec. }
    destruct (get_total_videos_bad_line url reg run Htool Hbad) as [e He].
    split; [by exists e|]. split.
    + intros Hurl Hmk. split.
      * exists (str env e). by rewrite stream_events, Hurl, Hmk, He.
      * rewrite stream_unfold. cbn zeta.
        rewrite stream_try_unfold, Hurl, Hmk. cbn zeta. rewrite He.
        cbn [trace sessions out].
        destruct (enumeration_silent env url reg) as (_ & _ & _ & Hquiet).
        apply quiet_trace in Hquiet as (_ & _ & Hq3).
        cbn. rewrite !existsb_app, Hq3. cbn.
        unfold cleanup_actions. by destruct (bool_decide _).
    + intros Hjson total c reg'. rewrite translate_line_unfold.
      fold (nonblank line). by rewrite Hnb, Hdec, Hjson.
  - intros n Hn.
    destruct (existsb (breaks_enumeration env)
                (Text.splitlines (cp_stdout (completed run)))) eqn:Hbad.
    { destruct (get_total_videos_bad_line url reg run Htool Hbad) as [e He].
      congruence. }
    revert Hn. unfold get_total_videos, subprocess_run. prog_simpl.
    rewrite Htool. destruct (finishes_within 30 run); cbn; [|done].
    destruct (cp_returncode (completed run) =? 0)%Z; cbn; [|done].
    rewrite (count_ids_ok env _ _ Hbad). cbn. congruence.
  - intros Hfin Hrc Hok.
    by rewrite (get_total_videos_counts url reg run Htool Hfin Hrc Hok).
Qed.

(** The loop over the download output, exactly: its events are those of
    the title records among the lines it goes through, numbered from the
    counter on; it ends with the counter advanced by their number when no
    line stops it, and with an exception otherwise. *)
Lemma read_output_exact total lines c (reg : registry) :
  exists o,
    read_output env total lines c reg =
    Result (Yield <$> progress_events total c
                        (titles env (lines_read env lines))) reg o
    /\ (if existsb (aborts env) lines then exists e, o = Raised e
        else o = Normal (c + length (titles env lines))).
Proof.
  revert c. induction lines as [|line rest IH]; intros c.
  - exists (Normal c). cbn. by rewrite Nat.add_0_r.
  - cbn [read_output lines_read existsb titles].
    destruct (title_or_not env line) as [(video & Ht & Ha)|[[Ht Ha]|[Ht Ha]]];
      rewrite Ha; cbn [orb].
    + destruct (IH (S c)) as (o & Hrun & Ho). exists o.
      rewrite (bind_normal _ _ _ _ _ _ (translate_line_title env total c line reg video Ht)).
      rewrite Hrun. cbn [trace sessions out titles]. rewrite Ht.
      rewrite progress_events_cons. split; [done|].
      destruct (existsb (aborts env) rest); [done|].
      rewrite Ho. cbn. by rewrite Nat.add_succ_r.
    + destruct (IH c) as (o & Hrun & Ho). exists o.
      rewrite (bind_normal _ _ _ _ _ _ (translate_line_skip env total c line reg Ht Ha)).
      rewrite Hrun. cbn [trace sessions out titles]. rewrite Ht. done.
    + destruct (translate_line_abort env total c line reg Ha) as [e He].
      exists (Raised e). rewrite (bind_raised _ _ _ _ _ _ He).
      split; [done|]. by exists e.
Qed.

(** C10.  In every run the [progress] events, taken in order, carry the
    counter values 1, 2, 3, ... and the count returned by the enumeration:
    the k-th has [completed] = k and [total] = that count.  In a run that
    reaches the download they are exactly one event for each title record
    among the lines the loop goes through, in the order of the lines, with
    the title of the record.  The loop, when no line stops it, ends with
    the counter advanced by the number of title records of the output.
    And one step of the loop moves the counter by exactly one, with exactly
    one [progress] event carrying the new value, when the line is a record
    with a title; otherwise it yields nothing and either leaves the
    counter as it was or stops the loop with an exception. *)
Theorem progress_counter_tracks_events url fmt sid (reg : registry) :
  (exists videos : list json,
      List.filter is_progress
        (events (trace (stream_playlist_download env url fmt sid reg))) =
      imap (fun i video =>
              EvProgress video (S i) (enumerated env url reg)) videos)
  /\ (forall n p,
        validate_youtube_url url = true ->
        os_makedirs env (DOWNLOADS_DIR env) = None ->
        out (get_total_videos env url reg) = Normal n ->
        popen env (download_command env url fmt) = inr p ->
        List.filter is_progress
          (events (trace (stream_playlist_download env url fmt sid reg))) =
        imap (fun i video => EvProgress video (S i) n)
          (titles env (lines_read env (p_stdout p))))
  /\ (forall total lines c (reg' : registry),
        existsb (aborts env) lines = false ->
        read_output env total lines c reg' =
        Result (Yield <$> imap (fun i video =>
                                  EvProgress video (S (c + i)) total)
                            (titles env lines))
          reg' (Normal (c + length (titles env lines))))
  /\ (forall total c line (reg' : registry),
        match title_of env line with
        | Some video =>
            translate_line env total c line reg' =
            Result [Yield (EvProgress video (S c) total)] reg' (Normal (S c))
        | None =>
            trace (translate_line env total c line reg') = []
            /\ (out (translate_line env total c line reg') = Normal c
                \/ exists e,
                     out (translate_line env total c line reg') = Raised e)
        end).
Proof.
  assert (Hafter : forall p o,
             List.filter is_progress (events (after_output env p o)) = []).
  { intros p o. destruct o; cbn; [|done|done].
    by destruct (p_returncode p =? 0)%Z. }
  split; [|split; [|split]].
  - rewrite stream_events. unfold enumerated.
    destruct (validate_youtube_url url); [|by exists []].
    destruct (os_makedirs env (DOWNLOADS_DIR env)); [by exists []|].
    destruct (out (get_total_videos env url reg)) as [n| |e];
      [|by exists []|by exists []].
    destruct (popen env (download_command env url fmt)) as [e|p];
      [by exists []|].
    cbn zeta.
    destruct (output_trace env n (p_stdout p) 0 (<[sid := p]> reg))
      as (videos & Hl & _ & _).
    cbn zeta in Hl. rewrite Hl, events_yields. exists videos.
    cbn. rewrite List.filter_app, filter_progress_events, Hafter.
    by rewrite app_nil_r.
  - intros n p Hurl Hmk Hn Hp.
    rewrite stream_events, Hurl, Hmk, Hn, Hp. cbn zeta.
    destruct (read_output_exact n (p_stdout p) 0 (<[sid := p]> reg))
      as (o & Hrun & _).
    rewrite Hrun. cbn [trace out]. rewrite events_yields.
    cbn. rewrite List.filter_app, filter_progress_events, Hafter.
    by rewrite app_nil_r.
  - intros total lines c reg' Hok.
    destruct (read_output_exact total lines c reg') as (o & Hrun & Ho).
    rewrite Hok in Ho. subst o. rewrite Hrun. do 3 f_equal.
    clear Hrun. induction lines as [|line rest IH]; [done|].
    cbn [existsb] in Hok. apply orb_false_elim in Hok as [Ha Hrest].
    cbn [lines_read]. rewrite Ha. cbn [titles].
    destruct (title_of env line); by rewrite (IH Hrest).
  - intros total c line reg'.
    destruct (title_or_not env line) as [(video & Ht & _)|[[Ht Ha]|[Ht Ha]]];
      rewrite Ht.
    + by apply translate_line_title.
    + rewrite (translate_line_skip env total c line reg' Ht Ha). auto.
    + destruct (translate_line_abort env total c line reg' Ha) as [e He].
      rewrite He. cbn. eauto.
Qed.

Lemma read_output_app total before after c (reg : registry) :
  read_output env total (before ++ after) c reg =
  (c' ← read_output env total before c; read_output env total after c') reg.
Proof.
  revert c. induction before as [|line rest IH]; intros c.
  - cbn. prog_unfold. cbn. by destruct (read_output env total after c reg).
  - cbn [app read_output]. prog_unfold.
    destruct (translate_line env total c line reg) as [t s [c'| |e]] eqn:Hline;
      [|done|done].
    assert (s = reg) as ->.
    { destruct (title_or_not env line) as [(video & Ht & _)|[[Ht Ha]|[Ht Ha]]].
      - rewrite (translate_line_title env total c line reg video Ht) in Hline.
        congruence.
      - rewrite (translate_line_skip env total c line reg Ht Ha) in Hline.
        congruence.
      - destruct (translate_line_abort env total c line reg Ha) as [e He].
        congruence. }
    rewrite IH. prog_unfold.
    destruct (read_output env total rest c' reg) as [t1 s1 [c1| |e1]];
      [|done|done].
    destruct (read_output env total after c1 s1) as [t2 s2 o2].
    by rewrite app_assoc.
Qed.


End Runs.

(** ** The HTTP surface *)

Lemma strip_prefix_Some (p s r : string) :
  Text.strip_prefix p s = Some r -> s = p +:+ r.
Proof.
  revert s. induction p as [|a p IH]; intros s; cbn.
  - by intros [= ->].
  - destruct s as [|b s]; [done|].
    destruct (Ascii.eqb_spec a b) as [->|]; [|done].
    intros H. by rewrite (IH _ H).
Qed.

(** C4.  Cancelling.  When the session id is in the registry with process
    [p], [cancel_download] asks [p] to terminate, waits for it with a
    timeout of 5, kills it if and only if it has not exited by then,
    deletes the id from the registry and returns the confirmation
    message.  When the id is not in the registry, it raises the HTTP
    error 404 and the registry is unchanged. *)
Theorem cancel_present_or_absent (sid : string) (reg : registry) :
  (forall p, reg !! sid = Some p ->
     cancel_download sid reg =
     Result ([SessionsIn sid true; Terminate p; Wait p (Some 5)]
             ++ (if exits_within 5 p then [] else [Kill p])
             ++ [SessionsDel sid])
       (delete sid reg)
       (Normal (JObj [("message",
                       JStr ("Download session " +:+ sid +:+ " cancelled"))])))
  /\ (reg !! sid = None ->
      cancel_download sid reg =
      Result [SessionsIn sid false] reg
        (Raised (HTTPException 404 "Session not found"))).
Proof.
  split.
  - intros p Hp.
    unfold cancel_download, sessions_contains, sessions_getitem,
      sessions_delitem, process_terminate, process_wait, process_kill.
    prog_simpl. rewrite Hp. cbn. rewrite Hp. cbn.
    destruct (exits_within 5 p); cbn; rewrite Hp; done.
  - intros Hp.
    unfold cancel_download, sessions_contains. prog_simpl. by rewrite Hp.
Qed.

(** ** The properties at concrete runs *)

Lemma successful_run_events_witness :
  validate_youtube_url Demo.playlist = true
  /\ os_makedirs Demo.good_env (DOWNLOADS_DIR Demo.good_env) = None
  /\ out (get_total_videos Demo.good_env Demo.playlist ∅) = Normal 2
  /\ popen Demo.good_env (download_command Demo.good_env Demo.playlist "mp3")
     = inr Demo.good_process
  /\ length (List.filter (decodes Demo.good_env) (p_stdout Demo.good_process)) = 2
  /\ forallb (fun line => negb (decoder_fails Demo.good_env line))
       (p_stdout Demo.good_process) = true
  /\ p_returncode Demo.good_process = 0%Z
  /\ exists videos : list json,
      length videos = 2
      /\ events (trace (stream_playlist_download Demo.good_env Demo.playlist
                          "mp3" "s1" ∅)) =
         EvTotal 2 :: imap (fun i video => EvProgress video (S i) 2) videos
         ++ [EvComplete]
      /\ out (stream_playlist_download Demo.good_env Demo.playlist "mp3" "s1" ∅)
         = Normal tt
      /\ sessions (stream_playlist_download Demo.good_env Demo.playlist
                     "mp3" "s1" ∅) !! "s1" = None.
Proof.
  assert (h1 : validate_youtube_url Demo.playlist = true)
    by (vm_compute; reflexivity).
  assert (h2 : os_makedirs Demo.good_env (DOWNLOADS_DIR Demo.good_env) = None)
    by reflexivity.
  assert (h3 : out (get_total_videos Demo.good_env Demo.playlist ∅) = Normal 2)
    by (vm_compute; reflexivity).
  assert (h4 : popen Demo.good_env
                 (download_command Demo.good_env Demo.playlist "mp3")
               = inr Demo.good_process) by reflexivity.
  assert (h5 : forallb (fun line => implb (decodes Demo.good_env line)
                          (bool_decide (is_Some (title_of Demo.good_env line))))
                 (p_stdout Demo.good_process) = true)
    by (vm_compute; reflexivity).
  assert (h6 : length (List.filter (decodes Demo.good_env)
                         (p_stdout Demo.good_process)) = 2)
    by (vm_compute; reflexivity).
  assert (h7 : p_returncode Demo.good_process = 0%Z) by reflexivity.
  assert (h8 : forallb (fun line => negb (decoder_fails Demo.good_env line))
                 (p_stdout Demo.good_process) = true)
    by (vm_compute; reflexivity).
  exact (conj h1 (conj h2 (conj h3 (conj h4 (conj h6 (conj h8 (conj h7
    (successful_run_events Demo.good_env Demo.playlist "mp3" "s1" ∅ 2
       Demo.good_process h1 h2 h3 h4 h5 h6 h8 h7)))))))).
Defined.


Lemma cancel_present_or_absent_witness :
  (Demo.one_session !! "s1" = Some Demo.good_process
   /\ cancel_download "s1" Demo.one_session =
      Result ([SessionsIn "s1" true; Terminate Demo.good_process;
               Wait Demo.good_process (Some 5)]
              ++ (if exits_within 5 Demo.good_process then []
                  else [Kill Demo.good_process])
              ++ [SessionsDel "s1"])
        (delete "s1" Demo.one_session)
        (Normal (JObj [("message",
                        JStr ("Download session " +:+ "s1" +:+ " cancelled"))])))
  /\ (Demo.one_session !! "s2" = None
      /\ cancel_download "s2" Demo.one_session =
         Result [SessionsIn "s2" false] Demo.one_session
           (Raised (HTTPException 404 "Session not found"))).
Proof.
  assert (h1 : Demo.one_session !! "s1" = Some Demo.good_process)
    by (vm_compute; reflexivity).
  assert (h2 : Demo.one_session !! "s2" = None) by (vm_compute; reflexivity).
  exact (conj
           (conj h1 (proj1 (cancel_present_or_absent "s1" Demo.one_session)
                       Demo.good_process h1))
           (conj h2 (proj2 (cancel_present_or_absent "s2" Demo.one_session) h2))).
Defined.


Lemma invalid_url_single_error_witness :
  validate_youtube_url "https://vimeo.com/1" = false
  /\ events (trace (stream_playlist_download Demo.good_env
                      "https://vimeo.com/1" "mp4" "s2" Demo.one_session))
     = [EvError "Invalid YouTube URL"]
  /\ out (stream_playlist_download Demo.good_env
            "https://vimeo.com/1" "mp4" "s2" Demo.one_session) = Returned
  /\ existsb adds_session
       (trace (stream_playlist_download Demo.good_env
                 "https://vimeo.com/1" "mp4" "s2" Demo.one_session)) = false
  /\ existsb starts_download
       (trace (stream_playlist_download Demo.good_env
                 "https://vimeo.com/1" "mp4" "s2" Demo.one_session)) = false
  /\ sessions (stream_playlist_download Demo.good_env
                 "https://vimeo.com/1" "mp4" "s2" Demo.one_session)
     = delete "s2" Demo.one_session
  /\ sessions (stream_playlist_download Demo.good_env
                 "https://vimeo.com/1" "mp4" "s2" Demo.one_session)
     ⊆ Demo.one_session.
Proof.
  assert (h1 : validate_youtube_url "https://vimeo.com/1" = false)
    by (vm_compute; reflexivity).
  exact (conj h1 (invalid_url_single_error Demo.good_env
                    "https://vimeo.com/1" "mp4" "s2" Demo.one_session h1)).
Defined.

Lemma enumeration_failure_aborts_witness :
  validate_youtube_url Demo.playlist = true
  /\ tool Demo.slow_env (enumerate_command Demo.playlist) = inr Demo.slow_run
  /\ finishes_within 30 Demo.slow_run = false
  /\ (exists text,
         events (trace (stream_playlist_download Demo.slow_env Demo.playlist
                          "mp4" "s1" ∅)) =
         [EvError ("Failed to get playlist info: " +:+ text)])
  /\ out (stream_playlist_download Demo.slow_env Demo.playlist "mp4" "s1" ∅)
     = Returned
  /\ existsb starts_download
       (trace (stream_playlist_download Demo.slow_env Demo.playlist
                 "mp4" "s1" ∅)) = false
  /\ existsb adds_session
       (trace (stream_playlist_download Demo.slow_env Demo.playlist
                 "mp4" "s1" ∅)) = false
  /\ sessions (stream_playlist_download Demo.slow_env Demo.playlist
                 "mp4" "s1" ∅) = delete "s1" ∅.
Proof.
  assert (h1 : validate_youtube_url Demo.playlist = true)
    by (vm_compute; reflexivity).
  assert (h2 : os_makedirs Demo.slow_env (DOWNLOADS_DIR Demo.slow_env) = None)
    by reflexivity.
  assert (h3 : tool Demo.slow_env (enumerate_command Demo.playlist)
               = inr Demo.slow_run) by reflexivity.
  assert (h4 : finishes_within 30 Demo.slow_run = false)
    by (vm_compute; reflexivity).
  exact (conj h1 (conj h3 (conj h4
    (enumeration_failure_aborts Demo.slow_env Demo.playlist "mp4" "s1" ∅
       Demo.slow_run h1 h2 h3 (or_introl h4))))).
Defined.

Lemma enumeration_strict_on_bad_lines_witness :
  tool Demo.noisy_env (enumerate_command Demo.playlist) = inr Demo.noisy_run
  /\ In "WARNING: slow" (Text.splitlines (cp_stdout (completed Demo.noisy_run)))
  /\ nonblank "WARNING: slow" = true
  /\ json_loads Demo.noisy_env "WARNING: slow" = None
  /\ (exists e,
         out (get_total_videos Demo.noisy_env Demo.playlist ∅) = Raised e)
  /\ (exists text,
         events (trace (stream_playlist_download Demo.noisy_env Demo.playlist
                          "mp4" "s1" ∅)) =
         [EvError ("Failed to get playlist info: " +:+ text)])
  /\ existsb starts_download
       (trace (stream_playlist_download Demo.noisy_env Demo.playlist
                 "mp4" "s1" ∅)) = false
  /\ is_JSONDecodeError (json_loads_raises Demo.noisy_env "WARNING: slow")
     = true
  /\ (forall total c (reg' : registry),
         translate_line Demo.noisy_env total c "WARNING: slow" reg' =
         Result [] reg' (Normal c))
  /\ tool Demo.good_env (enumerate_command Demo.playlist)
     = Demo.enum_ok Demo.two_ids
  /\ out (get_total_videos Demo.good_env Demo.playlist ∅) =
     Normal (length (List.filter (has_id Demo.good_env)
                       (Text.splitlines Demo.two_ids))).
Proof.
  assert (h1 : tool Demo.noisy_env (enumerate_command Demo.playlist)
               = inr Demo.noisy_run) by reflexivity.
  assert (h2 : In "WARNING: slow"
                 (Text.splitlines (cp_stdout (completed Demo.noisy_run))))
    by (vm_compute; auto).
  assert (h3 : nonblank "WARNING: slow" = true) by (vm_compute; reflexivity).
  assert (h4 : json_loads Demo.noisy_env "WARNING: slow" = None)
    by (vm_compute; reflexivity).
  assert (h5 : validate_youtube_url Demo.playlist = true)
    by (vm_compute; reflexivity).
  assert (h6 : os_makedirs Demo.noisy_env (DOWNLOADS_DIR Demo.noisy_env) = None)
    by reflexivity.
  assert (h7 : tool Demo.good_env (enumerate_command Demo.playlist)
               = Demo.enum_ok Demo.two_ids) by reflexivity.
  pose proof (enumeration_strict_on_bad_lines Demo.noisy_env Demo.playlist
                "mp4" "s1" ∅ Demo.noisy_run h1) as [Hbad _].
  assert (h8 : is_JSONDecodeError
                 (json_loads_raises Demo.noisy_env "WARNING: slow") = true)
    by (vm_compute; reflexivity).
  destruct (Hbad "WARNING: slow" h2 h3 h4) as (Hraise & Hrun & Hskip).
  destruct (Hrun h5 h6) as [Hev Hno].
  pose proof (enumeration_strict_on_bad_lines Demo.good_env Demo.playlist
                "mp4" "s1" ∅ _ h7) as (_ & _ & Hcount).
  refine (conj h1 (conj h2 (conj h3 (conj h4 (conj Hraise (conj Hev
            (conj Hno (conj h8 (conj (Hskip h8) (conj h7 _)))))))))).
  apply Hcount; vm_compute; reflexivity.
Defined.

Lemma progress_counter_tracks_events_witness :
  validate_youtube_url Demo.playlist = true
  /\ os_makedirs Demo.good_env (DOWNLOADS_DIR Demo.good_env) = None
  /\ out (get_total_videos Demo.good_env Demo.playlist ∅) = Normal 2
  /\ popen Demo.good_env (download_command Demo.good_env Demo.playlist "mp3")
     = inr Demo.good_process
  /\ titles Demo.good_env (lines_read Demo.good_env (p_stdout Demo.good_process))
     = [JStr "A"; JStr "B"]
  /\ List.filter is_progress
       (events (trace (stream_playlist_download Demo.good_env Demo.playlist
                         "mp3" "s1" ∅))) =
     imap (fun i video => EvProgress video (S i) 2)
       (titles Demo.good_env
          (lines_read Demo.good_env (p_stdout Demo.good_process))).
Proof.
  assert (h1 : validate_youtube_url Demo.playlist = true)
    by (vm_compute; reflexivity).
  assert (h2 : os_makedirs Demo.good_env (DOWNLOADS_DIR Demo.good_env) = None)
    by reflexivity.
  assert (h3 : out (get_total_videos Demo.good_env Demo.playlist ∅) = Normal 2)
    by (vm_compute; reflexivity).
  assert (h4 : popen Demo.good_env
                 (download_command Demo.good_env Demo.playlist "mp3")
               = inr Demo.good_process) by reflexivity.
  assert (h5 : titles Demo.good_env
                 (lines_read Demo.good_env (p_stdout Demo.good_process))
               = [JStr "A"; JStr "B"]) by (vm_compute; reflexivity).
  exact (conj h1 (conj h2 (conj h3 (conj h4 (conj h5
    (proj1 (proj2 (progress_counter_tracks_events Demo.good_env Demo.playlist
                     "mp3" "s1" ∅))
       2 Demo.good_process h1 h2 h3 h4)))))).
Defined.



(** A run of the good environment, event by event. *)
Example good_run_events :
  events (trace (stream_playlist_download Demo.good_env Demo.playlist
                   "mp3" "s1" ∅)) =
  [EvTotal 2; EvProgress (JStr "A") 1 2; EvProgress (JStr "B") 2 2; EvComplete].
Proof. vm_compute. reflexivity. Qed.

(** A line that decodes to a number is no record: the [in] test raises,
    the handler of the generator reports it and the stream ends there. *)
Example number_line_ends_stream :
  events (trace (stream_playlist_download
                   (Demo.demo_env (Demo.enum_ok Demo.two_ids)
                      (inr (Demo.demo_process
                              ["{title:A}"; "7"; "{title:B}"] 0 "")))
                   Demo.playlist "mp4" "s1" ∅)) =
  [EvTotal 2; EvProgress (JStr "A") 1 2; EvError "library error"].
Proof. vm_compute. reflexivity. Qed.

(** On a path that never registered a process the cleanup finds nothing
    to delete. *)
Example invalid_url_trace :
  trace (stream_playlist_download Demo.good_env "https://vimeo.com/1"
           "mp4" "s1" ∅) =
  [Yield (EvError "Invalid YouTube URL"); SessionsIn "s1" false].
Proof. vm_compute. reflexivity. Qed.

(** A blank line of the enumeration is passed over; the count is that of
    the other lines. *)
Example blank_line_not_counted :
  out (get_total_videos
         (Demo.demo_env (Demo.enum_ok ("  " +:+ Demo.nl +:+ "{id:a}"))
            (inr Demo.good_process))
         Demo.playlist ∅) = Normal 1.
Proof. vm_compute. reflexivity. Qed.

Example validate_youtube_url_examples :
  map validate_youtube_url
    ["youtube.com/"; "https://www.youtu.be/abc"; "http://youtu.com/";
     "https://youtube.com"; " https://youtube.com/"; "httpss://youtube.com/";
     "https://music.youtube.com/"]
  = [true; true; true; false; false; false; false].
Proof. vm_compute. reflexivity. Qed.

(** A process that takes 9 time units to exit is killed after the wait
    of 5. *)
Example cancel_kills_slow_process :
  let p := {| pid := 7; p_stdout := []; p_returncode := 0; p_stderr := "";
              exit_delay := Some 9 |} in
  trace (cancel_download "s1" (<["s1" := p]> ∅)) =
  [SessionsIn "s1" true; Terminate p; Wait p (Some 5); Kill p; SessionsDel "s1"].
Proof. vm_compute. reflexivity. Qed.

(** * Further properties of the module *)

(** ** [validate_youtube_url] *)

Lemma dotstar_any (s : string) (b : bool) : Re.dotstar s (fun _ _ => true) b = true.
Proof.
  revert b. induction s as [|c s IH]; intros b; [done|].
  cbn [Re.dotstar]. destruct (Text.is_lf c); [done|]. by rewrite IH.
Qed.

Ltac split_match H :=
  repeat match type of H with
  | (_ || _) = true => apply orb_prop in H as [H|H]
  | match Text.strip_prefix ?p ?s with _ => _ end = true =>
      let r := fresh "r" in
      let E := fresh "E" in
      destruct (Text.strip_prefix p s) as [r|] eqn:E;
      [apply strip_prefix_Some in E; subst s | discriminate H]
  end.

Ltac pick_parts :=
  match goal with
  | |- exists scheme www host tld rest, _ /\ _ /\ _ /\ _ /\ ?url = _ =>
      let with_tld scheme www host t :=
        match t with
        | "." +:+ ("com" +:+ ("/" +:+ ?r)) => exists scheme, www, host, "com", r
        | "." +:+ ("be" +:+ ("/" +:+ ?r)) => exists scheme, www, host, "be", r
        end in
      let with_host scheme www t :=
        match t with
        | "youtube" +:+ ?x => with_tld scheme www "youtube" x
        | "youtu" +:+ ?x => with_tld scheme www "youtu" x
        end in
      let with_www scheme t :=
        match t with
        | "www." +:+ ?x => with_host scheme "www." x
        | _ => with_host scheme "" t
        end in
      match url with
      | "http" +:+ ("s" +:+ ("://" +:+ ?x)) => with_www "https://" x
      | "http" +:+ ("://" +:+ ?x) => with_www "http://" x
      | _ => with_www "" url
      end
  end;
  repeat split; try reflexivity; cbn; auto 6.

(** X1.  [validate_youtube_url] accepts exactly the addresses that begin
    with an optional [http://] or [https://], an optional [www.], then
    [youtube] or [youtu], a dot, [com] or [be], and a slash; whatever
    follows the slash is accepted, and nothing may precede the scheme. *)
Theorem validate_youtube_url_accepts (url : string) :
  validate_youtube_url url = true <->
  exists scheme www host tld rest,
    In scheme [""; "http://"; "https://"]
    /\ In www [""; "www."]
    /\ In host ["youtube"; "youtu"]
    /\ In tld ["com"; "be"]
    /\ url = scheme +:+ www +:+ host +:+ "." +:+ tld +:+ "/" +:+ rest.
Proof.
  split.
  - unfold validate_youtube_url, Re.re_match, YOUTUBE_REGEX.
    cbn [Re.matches]. intros H.
    split_match H.
    all: pick_parts.
  - intros (scheme & www & host & tld & rest & Hs & Hw & Hh & Ht & ->).
    unfold validate_youtube_url, Re.re_match, YOUTUBE_REGEX.
    cbn in Hs, Hw, Hh, Ht.
    destruct Hs as [<-|[<-|[<-|[]]]]; destruct Hw as [<-|[<-|[]]];
      destruct Hh as [<-|[<-|[]]]; destruct Ht as [<-|[<-|[]]];
      cbv beta iota delta [String.append]; cbn -[Re.dotstar];
      rewrite ?dotstar_any; reflexivity.
Qed.

(** ** [get_total_videos] *)

Section Enumeration_more.

Variable env : environment.

(** The result of [get_total_videos] when it fails with [e]: the run of
    the tool, the printed line, the exception. *)
Lemma get_total_videos_result url (reg : registry) :
  let failed e :=
    Result [Run (enumerate_command url) 30;
            Print ("Error getting total videos: " +:+ str env e)]
      reg (Raised e) in
  get_total_videos env url reg =
  match tool env (enumerate_command url) with
  | inl e => failed e
  | inr run =>
      if finishes_within 30 run then
        if (cp_returncode (completed run) =? 0)%Z then
          match out (count_ids env
                       (Text.splitlines (cp_stdout (completed run))) reg) with
          | Normal n => Result [Run (enumerate_command url) 30] reg (Normal n)
          | Raised e => failed e
          | Returned => Result [Run (enumerate_command url) 30] reg Returned
          end
        else failed (Exception_ ("yt-dlp error: " +:+ cp_stderr (completed run)))
      else failed (TimeoutExpired 30)
  end.
Proof.
  cbn zeta. unfold get_total_videos, subprocess_run. prog_simpl.
  destruct (tool env (enumerate_command url)) as [e|run]; [done|].
  destruct (finishes_within 30 run); cbn; [|done].
  destruct (cp_returncode (completed run) =? 0)%Z; cbn; [|done].
  destruct (count_ids_pure env (Text.splitlines (cp_stdout (completed run))))
    as (o & _ & Ho).
  rewrite Ho. by destruct o.
Qed.

(** X2.  [get_total_videos] runs the tool exactly once, with the
    enumeration command and a timeout of 30, and leaves the registry
    alone.  When it returns it has printed nothing; when it raises it has
    printed one line, [Error getting total videos: ] followed by the text
    of the exception, and the exception that leaves the function is the
    one that was printed. *)
Theorem get_total_videos_prints_and_reraises url (reg : registry) :
  let g := get_total_videos env url reg in
  sessions g = reg
  /\ match out g with
     | Normal _ => trace g = [Run (enumerate_command url) 30]
     | Raised e =>
         trace g = [Run (enumerate_command url) 30;
                    Print ("Error getting total videos: " +:+ str env e)]
     | Returned => False
     end.
Proof.
  cbn zeta. rewrite get_total_videos_result. cbn zeta.
  destruct (tool env (enumerate_command url)) as [e|run]; [done|].
  destruct (finishes_within 30 run); [|done].
  destruct (cp_returncode (completed run) =? 0)%Z; [|done].
  destruct (count_ids_pure env (Text.splitlines (cp_stdout (completed run))))
    as (o & Hret & Ho).
  rewrite Ho. cbn. by destruct o.
Qed.

(** X3.  Which failure wins in [get_total_videos].  A tool that cannot be
    started raises its own exception.  Otherwise a run that does not end
    within 30 time units raises [TimeoutExpired], whatever it printed.
    Otherwise an exit code other than 0 raises [Exception] with the text
    [yt-dlp error: ] followed by the standard error, and the output is not
    looked at.  Only with exit code 0 is the output decoded: the function
    raises if a line breaks the count, and returns the count if none
    does. *)
Theorem get_total_videos_failure_order url (reg : registry) :
  let g := get_total_videos env url reg in
  match tool env (enumerate_command url) with
  | inl e => out g = Raised e
  | inr run =>
      if finishes_within 30 run then
        if (cp_returncode (completed run) =? 0)%Z then
          let lines := Text.splitlines (cp_stdout (completed run)) in
          if existsb (breaks_enumeration env) lines
          then exists e, out g = Raised e
          else out g = Normal (length (List.filter (has_id env) lines))
        else out g =
             Raised (Exception_ ("yt-dlp error: " +:+ cp_stderr (completed run)))
      else out g = Raised (TimeoutExpired 30)
  end.
Proof.
  cbn zeta. rewrite get_total_videos_result. cbn zeta.
  destruct (tool env (enumerate_command url)) as [e|run]; [done|].
  destruct (finishes_within 30 run); [|done].
  destruct (cp_returncode (completed run) =? 0)%Z; [|done].
  destruct (existsb (breaks_enumeration env)
              (Text.splitlines (cp_stdout (completed run)))) eqn:Hbad.
  - destruct (count_ids_fail env _ reg Hbad) as [e He]. rewrite He. cbn.
    by exists e.
  - by rewrite (count_ids_ok env _ reg Hbad).
Qed.

(** X4.  A line of the enumeration that is valid JSON but decodes to
    [null], a boolean or a number makes [get_total_videos] raise: the test
    ['id' in ...] is not defined on such a value. *)
Theorem scalar_line_breaks_enumeration url (reg : registry) (run : tool_run)
  (line : string) (v : json) :
  tool env (enumerate_command url) = inr run ->
  In line (Text.splitlines (cp_stdout (completed run))) ->
  nonblank line = true ->
  json_loads env line = Some v ->
  scalar v = true ->
  (exists e, out (get_total_videos env url reg) = Raised e)
  /\ forall total c (reg' : registry),
       translate_line env total c line reg' = Result [] reg' (Raised (TypeError v)).
Proof.
  intros Htool Hin Hnb Hdec Hv. split.
  - apply (get_total_videos_bad_line env url reg run Htool).
    apply existsb_exists. exists line. split; [done|].
    unfold breaks_enumeration. rewrite Hnb, Hdec. by destruct v.
  - intros total c reg'. rewrite translate_line_unfold.
    fold (nonblank line). rewrite Hnb, Hdec. by destruct v.
Qed.

Lemma filter_has_id_le lines :
  length (List.filter (has_id env) lines)
  <= length (List.filter nonblank lines).
Proof.
  induction lines as [|line rest IH]; [done|].
  cbn [List.filter]. unfold has_id at 1.
  destruct (nonblank line); cbn [andb].
  - destruct (match json_loads env line with Some _ => _ | None => _ end);
      cbn [length]; lia.
  - done.
Qed.

(** X5.  The count returned by [get_total_videos] is at most the number of
    lines of the output that are not blank: blank lines never count, and a
    line counts at most once. *)
Theorem enumeration_count_bounded url (reg : registry) (run : tool_run) (n : nat) :
  tool env (enumerate_command url) = inr run ->
  out (get_total_videos env url reg) = Normal n ->
  n <= length (List.filter nonblank
                 (Text.splitlines (cp_stdout (completed run))))
  /\ n <= length (Text.splitlines (cp_stdout (completed run))).
Proof.
  intros Htool Hn.
  assert (n = length (List.filter (has_id env)
                        (Text.splitlines (cp_stdout (completed run))))) as ->.
  { revert Hn. rewrite get_total_videos_result, Htool. cbn zeta.
    destruct (finishes_within 30 run); [|done].
    destruct (cp_returncode (completed run) =? 0)%Z; [|done].
    destruct (existsb (breaks_enumeration env)
                (Text.splitlines (cp_stdout (completed run)))) eqn:Hbad.
    - destruct (count_ids_fail env _ reg Hbad) as [e He]. by rewrite He.
    - rewrite (count_ids_ok env _ reg Hbad). cbn. congruence. }
  split; [apply filter_has_id_le|].
  etrans; [apply filter_has_id_le|]. apply List.filter_length_le.
Qed.

End Enumeration_more.

(** ** [stream_playlist_download] *)

Section Generator_more.

Variable env : environment.

Lemma cleanup_launches sid present :
  List.filter launches (cleanup_actions sid present) = [].
Proof. by destruct present. Qed.

Lemma cleanup_adds sid present :
  existsb adds_session (cleanup_actions sid present) = false.
Proof. by destruct present. Qed.

Lemma cleanup_waits sid present :
  existsb waits (cleanup_actions sid present) = false.
Proof. by destruct present. Qed.

Lemma yields_launches (evs : list event) :
  List.filter launches (Yield <$> evs) = [].
Proof. induction evs as [|e evs IH]; [done|]. cbn. exact IH. Qed.

Lemma yields_waits (evs : list event) :
  existsb waits (Yield <$> evs) = false.
Proof. induction evs as [|e evs IH]; [done|]. cbn. exact IH. Qed.

Lemma after_output_launches p o :
  List.filter launches (after_output env p o) = [].
Proof. by destruct o. Qed.

Lemma enumeration_launches url (reg : registry) :
  List.filter launches (trace (get_total_videos env url reg)) =
  [Run (enumerate_command url) 30].
Proof.
  rewrite get_total_videos_result. cbn zeta.
  destruct (tool env (enumerate_command url)) as [e|run]; [done|].
  destruct (finishes_within 30 run); [|done].
  destruct (cp_returncode (completed run) =? 0)%Z; [|done].
  by destruct (out (count_ids env _ reg)).
Qed.

(** X6.  When the downloads directory cannot be made, the generator
    yields the one event [error] with the text of that exception and ends
    normally: the tool is never run, and the only other actions are the
    attempt itself and the cleanup. *)
Theorem setup_failure_single_error url fmt sid (reg : registry) (e : exn) :
  validate_youtube_url url = true ->
  os_makedirs env (DOWNLOADS_DIR env) = Some e ->
  stream_playlist_download env url fmt sid reg =
  Result ([Makedirs (DOWNLOADS_DIR env); Yield (EvError (str env e))]
          ++ cleanup_actions sid (bool_decide (is_Some (reg !! sid))))
    (delete sid reg) (Normal tt).
Proof.
  intros Hurl Hmk. rewrite stream_unfold. cbn zeta.
  by rewrite stream_try_unfold, Hurl, Hmk.
Qed.

(** X7.  When the enumeration returns [n] but the download process cannot
    be started, the generator yields [total] with [n] and then one [error]
    event with the text of the exception, and ends normally; nothing is
    stored in the registry. *)
Theorem popen_failure_events url fmt sid (reg : registry) (n : nat) (e : exn) :
  validate_youtube_url url = true ->
  os_makedirs env (DOWNLOADS_DIR env) = None ->
  out (get_total_videos env url reg) = Normal n ->
  popen env (download_command env url fmt) = inl e ->
  let r := stream_playlist_download env url fmt sid reg in
  events (trace r) = [EvTotal n; EvError (str env e)]
  /\ out r = Normal tt
  /\ existsb adds_session (trace r) = false
  /\ sessions r = delete sid reg.
Proof.
  intros Hurl Hmk Hn Hp. cbn zeta. split.
  { by rewrite stream_events, Hurl, Hmk, Hn, Hp. }
  rewrite stream_unfold. cbn zeta.
  rewrite stream_try_unfold, Hurl, Hmk. cbn zeta. rewrite Hn, Hp.
  cbn [trace sessions out]. split; [done|]. split; [|done].
  destruct (enumeration_silent env url reg) as (_ & _ & _ & Hquiet).
  apply quiet_trace in Hquiet as (_ & Hq2 & _).
  cbn. rewrite !existsb_app, Hq2, cleanup_adds. done.
Qed.

Lemma read_output_abort total before line after c (reg : registry) :
  forallb (fun l => negb (aborts env l)) before = true ->
  aborts env line = true ->
  exists e,
    read_output env total (before ++ line :: after) c reg =
    Result (Yield <$> progress_events total c (titles env before)) reg
      (Raised e).
Proof.
  intros Hclean Hab.
  destruct (translate_line_abort env total
              (c + length (titles env before)) line reg Hab) as [e He].
  exists e. rewrite read_output_app.
  rewrite (bind_normal _ _ _ _ _ _ (read_output_clean env total before c reg Hclean)).
  cbn [read_output]. rewrite (bind_raised _ _ _ _ _ _ He).
  cbn [trace sessions out]. by rewrite app_nil_r.
Qed.

Lemma read_output_normal_clean total lines c c' (reg : registry) :
  out (read_output env total lines c reg) = Normal c' ->
  forallb (fun l => negb (aborts env l)) lines = true.
Proof.
  revert c. induction lines as [|line rest IH]; intros c; [done|].
  cbn [read_output forallb].
  destruct (title_or_not env line) as [(video & Ht & Ha)|[[Ht Ha]|[Ht Ha]]].
  - rewrite (bind_normal _ _ _ _ _ _ (translate_line_title env total c line reg video Ht)).
    cbn [out]. rewrite Ha. intros H. by rewrite (IH _ H).
  - rewrite (bind_normal _ _ _ _ _ _ (translate_line_skip env total c line reg Ht Ha)).
    cbn [out]. rewrite Ha. intros H. by rewrite (IH _ H).
  - destruct (translate_line_abort env total c line reg Ha) as [e He].
    by rewrite (bind_raised _ _ _ _ _ _ He).
Qed.

(** X8.  A line of the download output that stops the loop (the decoder
    fails on it, or it decodes to a value on which [in] is not defined, or
    to a string or an array that holds [title]) ends the stream with an
    [error] event: the [progress] events of the lines before it have been
    yielded, the lines after it are not read, the generator does not wait
    for the process, so its exit code plays no part, and no [complete]
    event is yielded. *)
Theorem aborting_line_ends_stream url fmt sid (reg : registry) (n : nat)
  (p : Popen) (before after : list string) (line : string) :
  validate_youtube_url url = true ->
  os_makedirs env (DOWNLOADS_DIR env) = None ->
  out (get_total_videos env url reg) = Normal n ->
  popen env (download_command env url fmt) = inr p ->
  p_stdout p = before ++ line :: after ->
  forallb (fun l => negb (aborts env l)) before = true ->
  aborts env line = true ->
  let r := stream_playlist_download env url fmt sid reg in
  (exists e,
      events (trace r) =
      EvTotal n :: progress_events n 0 (titles env before)
      ++ [EvError (str env e)])
  /\ existsb waits (trace r) = false
  /\ out r = Normal tt
  /\ sessions r !! sid = None.
Proof.
  intros Hurl Hmk Hn Hp Hout Hclean Hab. cbn zeta.
  destruct (read_output_abort n before line after 0 (<[sid := p]> reg)
              Hclean Hab) as [e He].
  rewrite <- Hout in He.
  rewrite (stream_started_events env url fmt sid reg n p Hurl Hmk Hn Hp).
  rewrite (stream_started env url fmt sid reg n p Hurl Hmk Hn Hp).
  rewrite He. cbn [trace sessions out after_output].
  split; [|split; [|split; [done|apply lookup_delete_eq]]].
  - exists e. by rewrite events_yields.
  - destruct (get_total_videos_pure env url) as (t & o & _ & Ht & Hg).
    rewrite Hg. cbn [trace].
    assert (existsb waits t = false) as Hw.
    { clear Hg. induction Ht as [|a t Ha _ IH]; [done|]. by destruct a. }
    rewrite !existsb_app. cbn [existsb waits orb].
    rewrite !existsb_app, Hw, yields_waits. done.
Qed.

Lemma progress_not_terminal total c videos :
  forallb (fun e => negb (terminal e)) (progress_events total c videos) = true.
Proof.
  revert c. induction videos as [|v videos IH]; intros c; [done|].
  rewrite progress_events_cons. cbn. apply IH.
Qed.

(** X9.  Every stream ends with exactly one terminal event: the events
    of a run are never empty, the last one is [complete] or [error], and
    no event before the last is. *)
Theorem stream_ends_with_terminal_event url fmt sid (reg : registry) :
  exists (earlier : list event) (last : event),
    events (trace (stream_playlist_download env url fmt sid reg)) =
    earlier ++ [last]
    /\ terminal last = true
    /\ forallb (fun e => negb (terminal e)) earlier = true.
Proof.
  rewrite stream_events.
  destruct (validate_youtube_url url); [|by exists [], (EvError "Invalid YouTube URL")].
  destruct (os_makedirs env (DOWNLOADS_DIR env)) as [e|];
    [by exists [], (EvError (str env e))|].
  destruct (enumeration_silent env url reg) as (_ & _ & Hret & _).
  destruct (out (get_total_videos env url reg)) as [n| |e]; [|done|].
  2:{ by eexists [], _. }
  destruct (popen env (download_command env url fmt)) as [e|p].
  { by exists [EvTotal n], (EvError (str env e)). }
  cbn zeta.
  destruct (output_trace env n (p_stdout p) 0 (<[sid := p]> reg))
    as (videos & Hl & _ & Hlret).
  cbn zeta in Hl, Hlret. rewrite Hl, events_yields.
  destruct (out (read_output env n (p_stdout p) 0 (<[sid := p]> reg)))
    as [c| |e]; [|done|]; cbn [after_output events].
  - exists (EvTotal n :: progress_events n 0 videos).
    destruct (p_returncode p =? 0)%Z; eexists; (split; [reflexivity|]);
      (split; [done|]); cbn; apply progress_not_terminal.
  - exists (EvTotal n :: progress_events n 0 videos), (EvError (str env e)).
    split; [done|]. split; [done|]. cbn. apply progress_not_terminal.
Qed.

Lemma complete_not_progress total c videos :
  ~ In EvComplete (progress_events total c videos).
Proof.
  revert c. induction videos as [|v videos IH]; intros c; [by intros []|].
  rewrite progress_events_cons. intros [H|H]; [done|]. by apply (IH (S c)).
Qed.

(** X10.  A [complete] event is only ever yielded when the download
    process was started, no line of its output stopped the loop, and it
    exited with code 0. *)
Theorem complete_only_after_clean_exit url fmt sid (reg : registry) :
  In EvComplete (events (trace (stream_playlist_download env url fmt sid reg))) ->
  validate_youtube_url url = true
  /\ exists p,
      popen env (download_command env url fmt) = inr p
      /\ p_returncode p = 0%Z
      /\ forallb (fun l => negb (aborts env l)) (p_stdout p) = true.
Proof.
  rewrite stream_events.
  destruct (validate_youtube_url url); [|by intros [|[]]].
  destruct (os_makedirs env (DOWNLOADS_DIR env)); [by intros [|[]]|].
  destruct (out (get_total_videos env url reg)) as [n| |e];
    [|by intros []|by intros [|[]]].
  destruct (popen env (download_command env url fmt)) as [e|p];
    [by intros [|[|[]]]|].
  cbn zeta. intros [H|H]; [done|]. split; [done|]. exists p. split; [done|].
  destruct (output_trace env n (p_stdout p) 0 (<[sid := p]> reg))
    as (videos & Hl & _ & _).
  cbn zeta in Hl. rewrite Hl, events_yields in H.
  apply in_app_or in H as [H|H]; [by apply complete_not_progress in H|].
  destruct (out (read_output env n (p_stdout p) 0 (<[sid := p]> reg)))
    as [c| |e] eqn:Hout; [|done|by destruct H as [|[]]].
  split; [|by apply (read_output_normal_clean n _ 0 c _ Hout)].
  revert H. cbn. destruct (p_returncode p =? 0)%Z eqn:Hrc; [|by intros [|[]]].
  intros _. by apply Z.eqb_eq.
Qed.

End Generator_more.

Section Generator_order.

Variable env : environment.

Lemma scan_neutral_app sid b (t t' : list action) :
  Forall (fun a => match a with
                   | SessionsSet _ _ | SessionsDel _
                   | Yield (EvProgress _ _ _) => False
                   | _ => True
                   end) t ->
  progress_while_registered sid b (t ++ t') =
  progress_while_registered sid b t'.
Proof.
  induction 1 as [|a t Ha _ IH]; [done|].
  destruct a as [e| | | | | | | | | |]; try done; cbn; try exact IH.
  by destruct e.
Qed.

Lemma scan_progress sid total c videos (t' : list action) :
  progress_while_registered sid true
    ((Yield <$> progress_events total c videos) ++ t') =
  progress_while_registered sid true t'.
Proof.
  revert c. induction videos as [|v videos IH]; intros c; [done|].
  rewrite progress_events_cons. cbn. apply IH.
Qed.

Lemma trace_regroup (a x y z : action) (t l1 l2 l3 : list action) :
  (a :: t ++ [x; y; z] ++ l1 ++ l2) ++ l3 =
  (a :: t ++ [x; y]) ++ z :: l1 ++ l2 ++ l3.
Proof. cbn. rewrite <- !app_assoc. cbn. by rewrite <- !app_assoc. Qed.

Lemma scan_cleanup sid b present :
  progress_while_registered sid b (cleanup_actions sid present) = true.
Proof. by destruct present. Qed.

(** X11.  Every [progress] event is yielded while the process of the
    stream is in the registry: in the trace of any run, started from any
    registry, the process is stored before the first [progress] event and
    removed only after the last one.  So a cancel request that arrives
    after a [progress] event finds the session. *)
Theorem progress_only_while_registered url fmt sid (reg : registry) (b : bool) :
  progress_while_registered sid b
    (trace (stream_playlist_download env url fmt sid reg)) = true.
Proof.
  rewrite stream_unfold. cbn zeta. cbn [trace]. rewrite stream_try_unfold.
  destruct (get_total_videos_pure env url) as (t & o & Ho & Ht & Hg).
  assert (Hneutral : Forall (fun a => match a with
                                      | SessionsSet _ _ | SessionsDel _
                                      | Yield (EvProgress _ _ _) => False
                                      | _ => True
                                      end) t).
  { eapply Forall_impl; [exact Ht|]. intros a Ha. by destruct a. }
  rewrite Hg. cbn [trace out sessions].
  destruct (validate_youtube_url url); [|apply scan_cleanup].
  destruct (os_makedirs env (DOWNLOADS_DIR env)); [apply scan_cleanup|].
  cbn zeta. destruct o as [n| |e]; [|done|].
  - destruct (popen env (download_command env url fmt)) as [e|p];
      cbn [trace sessions out].
    + rewrite scan_neutral_app; [apply scan_cleanup|].
      constructor; [done|]. apply Forall_app. split; [done|].
      repeat constructor.
    + rewrite trace_regroup, scan_neutral_app.
      2:{ constructor; [done|]. apply Forall_app. split; [done|].
          repeat constructor. }
      cbn [progress_while_registered].
      rewrite String.eqb_refl, orb_true_r.
      destruct (output_trace env n (p_stdout p) 0 (<[sid := p]> reg))
        as (videos & Hl & _ & _).
      cbn zeta in Hl. rewrite Hl, scan_progress.
      rewrite scan_neutral_app; [apply scan_cleanup|].
      destruct (out _); repeat constructor.
      by destruct (p_returncode p =? 0)%Z.
  - cbn [trace sessions out].
    rewrite scan_neutral_app; [apply scan_cleanup|].
    constructor; [done|]. apply Forall_app. split; [done|].
    repeat constructor.
Qed.

(** X12.  The generator runs the tool at most twice and in a fixed order:
    nothing when the address is refused or the directory cannot be made;
    otherwise the enumeration, once, with a timeout of 30; and after it
    the download, once, exactly when the enumeration returned. *)
Theorem tool_launch_order url fmt sid (reg : registry) :
  List.filter launches (trace (stream_playlist_download env url fmt sid reg)) =
  if validate_youtube_url url then
    match os_makedirs env (DOWNLOADS_DIR env) with
    | Some _ => []
    | None =>
        Run (enumerate_command url) 30 ::
        match out (get_total_videos env url reg) with
        | Normal _ => [Spawn (download_command env url fmt)]
        | _ => []
        end
    end
  else [].
Proof.
  rewrite stream_unfold. cbn zeta. cbn [trace].
  rewrite List.filter_app, cleanup_launches, app_nil_r, stream_try_unfold.
  assert (Hg := enumeration_launches env url reg).
  destruct (validate_youtube_url url); [|done].
  destruct (os_makedirs env (DOWNLOADS_DIR env)); [done|].
  cbn zeta. destruct (out (get_total_videos env url reg)) as [n| |e].
  - destruct (popen env (download_command env url fmt)) as [e|p];
      cbn [trace List.filter launches]; rewrite !List.filter_app, Hg; [done|].
    destruct (output_trace env n (p_stdout p) 0 (<[sid := p]> reg))
      as (videos & Hl & _ & _).
    cbn zeta in Hl. rewrite Hl, yields_launches, after_output_launches. done.
  - cbn [trace List.filter launches]. by rewrite Hg.
  - cbn [trace List.filter launches]. by rewrite List.filter_app, Hg.
Qed.

(** X13.  Besides the lines that do not decode, the loop over the
    download output passes over blank lines and over records without a
    [title]: such a line yields nothing and changes neither the counter
    nor the registry, and the loop behaves on an output with it as on the
    same output without it. *)
Theorem blank_and_untitled_lines_skipped (line : string) :
  nonblank line = false
  \/ (exists members,
        json_loads env line = Some (JObj members)
        /\ dict_get "title" members = None) ->
  (forall total c (reg : registry),
      translate_line env total c line reg = Result [] reg (Normal c))
  /\ (forall total before after c (reg : registry),
        read_output env total (before ++ line :: after) c reg =
        read_output env total (before ++ after) c reg).
Proof.
  intros Hline.
  assert (Hskip : forall total c (reg : registry),
             translate_line env total c line reg = Result [] reg (Normal c)).
  { intros total c reg. rewrite translate_line_unfold. fold (nonblank line).
    destruct Hline as [->|(members & Hdec & Ht)]; [done|].
    destruct (nonblank line); [|done]. rewrite Hdec. cbn. by rewrite Ht. }
  split; [done|].
  intros total before after c reg.
  rewrite !read_output_app. prog_unfold.
  destruct (read_output env total before c reg) as [t1 s1 [c'| |e]];
    [|done|done].
  cbn [read_output]. prog_unfold. rewrite Hskip.
  by destruct (read_output env total after c' s1).
Qed.

Lemma stream_never_raises url fmt sid (reg : registry) :
  let r := stream_playlist_download env url fmt sid reg in
  (out r = Normal tt \/ out r = Returned) /\ sessions r = delete sid reg.
Proof.
  cbn zeta. rewrite stream_unfold. cbn zeta. cbn [out sessions].
  rewrite stream_try_unfold.
  destruct (enumeration_silent env url reg) as (_ & _ & Hret & _).
  destruct (validate_youtube_url url); [|auto].
  destruct (os_makedirs env (DOWNLOADS_DIR env)); [auto|].
  cbn zeta. destruct (out (get_total_videos env url reg)); [|auto|auto].
  destruct (popen env (download_command env url fmt)); cbn [out sessions];
    [auto|].
  split; [auto|]. apply delete_insert_eq.
Qed.

End Generator_order.

(** ** The endpoints *)

Section Endpoints_more.

Variable env : environment.

(** X16.  A request that passes the constraints is answered 200 whatever
    happens in the stream: the generator runs under the session id given
    by [uuid4], its errors are reported as events and never reach the
    server as exceptions, and when the body has been sent the registry has
    no entry for that id. *)
Theorem accepted_request_streams (q : download_query) (u f : string)
  (reg : registry) :
  check_download_query q = Some (u, f) ->
  let r := stream_playlist_download env u f (uuid4 env) reg in
  get_download env q reg =
  Result (trace r) (delete (uuid4 env) reg) (Normal 200)
  /\ delete (uuid4 env) reg !! uuid4 env = None.
Proof.
  intros Hq. cbn zeta. split; [|apply lookup_delete_eq].
  unfold get_download, download_endpoint, send_body. rewrite Hq.
  cbn [body_iterator]. prog_unfold.
  destruct (stream_never_raises env u f (uuid4 env) reg) as [Hout Hreg].
  cbn zeta in Hout, Hreg.
  destruct (stream_playlist_download env u f (uuid4 env) reg) as [t reg' o].
  cbn [trace sessions out] in *. subst reg'.
  destruct Hout as [-> | ->]; by rewrite app_nil_r.
Qed.

Lemma cancel_download_absent (sid : string) (reg : registry) :
  reg !! sid = None ->
  cancel_download sid reg =
  Result [SessionsIn sid false] reg
    (Raised (HTTPException 404 "Session not found")).
Proof.
  intros Hp. unfold cancel_download, sessions_contains. prog_simpl.
  by rewrite Hp.
Qed.

Lemma cancel_download_sessions (sid : string) (reg : registry) :
  sessions (cancel_download sid reg) = delete sid reg.
Proof.
  destruct (reg !! sid) as [p|] eqn:Hp.
  - unfold cancel_download, sessions_contains, sessions_getitem,
      sessions_delitem, process_terminate, process_wait, process_kill.
    prog_simpl. rewrite Hp. cbn. rewrite Hp. cbn.
    destruct (exits_within 5 p); cbn; rewrite Hp; done.
  - rewrite (cancel_download_absent sid reg Hp). cbn. by rewrite delete_id.
Qed.

(** X17.  Cancelling is not repeatable: after [cancel_download] has been
    called for a session id, whether the id was registered or not, a
    second call for the same id raises 404 and changes nothing. *)
Theorem cancel_twice_not_found (sid : string) (reg : registry) :
  cancel_download sid (sessions (cancel_download sid reg)) =
  Result [SessionsIn sid false] (delete sid reg)
    (Raised (HTTPException 404 "Session not found")).
Proof.
  rewrite cancel_download_sessions.
  apply cancel_download_absent, lookup_delete_eq.
Qed.

(** X18.  The cleanup of the generator after a cancel: when
    [cancel_download] has removed the session, the [finally] block finds
    the id absent, deletes nothing and raises nothing. *)
Theorem cleanup_after_cancel (sid : string) (reg : registry) :
  stream_cleanup sid (sessions (cancel_download sid reg)) =
  Result [SessionsIn sid false] (delete sid reg) (Normal tt).
Proof.
  rewrite cancel_download_sessions, stream_cleanup_unfold, lookup_delete_eq.
  cbn. by rewrite delete_delete_eq.
Qed.

(** X19.  Cancelling a stream that has ended: whatever way the generator
    ended, [cancel_download] for its session id raises 404. *)
Theorem cancel_after_stream_not_found url fmt sid (reg : registry) :
  cancel_download sid
    (sessions (stream_playlist_download env url fmt sid reg)) =
  Result [SessionsIn sid false] (delete sid reg)
    (Raised (HTTPException 404 "Session not found")).
Proof.
  destruct (stream_never_raises env url fmt sid reg) as [_ Hreg].
  cbn zeta in Hreg. rewrite Hreg.
  apply cancel_download_absent, lookup_delete_eq.
Qed.

(** X20.  A stream and a cancel only ever change the entry of their own
    session id: every other entry of the registry is the same after as
    before. *)
Theorem other_sessions_untouched url fmt (sid other : string) (reg : registry) :
  other <> sid ->
  sessions (stream_playlist_download env url fmt sid reg) !! other
  = reg !! other
  /\ sessions (cancel_download sid reg) !! other = reg !! other.
Proof.
  intros Hne.
  destruct (stream_never_raises env url fmt sid reg) as [_ Hreg].
  cbn zeta in Hreg. rewrite Hreg, cancel_download_sessions.
  by rewrite lookup_delete_ne.
Qed.

Lemma active_sessions_answer (ids : list string) :
  active_sessions (JObj [("active_sessions", JArr (JStr <$> ids))]) = ids.
Proof.
  cbn. induction ids as [|sid ids IH]; [done|]. cbn. by rewrite IH.
Qed.

Lemma list_sessions_ids (reg : registry) :
  exists ids : list string,
    list_sessions reg =
    Result [] reg (Normal (JObj [("active_sessions", JArr (JStr <$> ids))]))
    /\ forall sid, In sid ids <-> is_Some (reg !! sid).
Proof.
  exists (map_to_list reg).*1. split; [done|].
  intros sid. rewrite <- list_elem_of_In, list_elem_of_fmap. split.
  - intros ([k v] & -> & Hin). apply elem_of_map_to_list in Hin.
    by exists v.
  - intros [v Hv]. exists (sid, v). split; [done|].
    by apply elem_of_map_to_list.
Qed.

(** X21.  [list_sessions] answers with the ids of the registry, each
    once, and nothing else; it does nothing and leaves the registry as it
    is. *)
Theorem list_sessions_lists_registry (reg : registry) :
  exists ids : list string,
    list_sessions reg =
    Result [] reg (Normal (JObj [("active_sessions", JArr (JStr <$> ids))]))
    /\ NoDup ids
    /\ forall sid, In sid ids <-> is_Some (reg !! sid).
Proof.
  exists (map_to_list reg).*1. split; [done|]. split.
  - apply NoDup_fst_map_to_list.
  - intros sid. rewrite <- list_elem_of_In, list_elem_of_fmap. split.
    + intros ([k v] & -> & Hin). apply elem_of_map_to_list in Hin.
      by exists v.
    + intros [v Hv]. exists (sid, v). split; [done|].
      by apply elem_of_map_to_list.
Qed.

(** X22.  A stream that has ended is not listed: after any run of the
    generator, the answer of [list_sessions] does not hold its session id,
    and holds every other id exactly when it was registered before. *)
Theorem finished_stream_not_listed url fmt sid (reg : registry) :
  match out (list_sessions
               (sessions (stream_playlist_download env url fmt sid reg))) with
  | Normal answer =>
      ~ In sid (active_sessions answer)
      /\ forall other, other <> sid ->
           (In other (active_sessions answer) <-> is_Some (reg !! other))
  | _ => False
  end.
Proof.
  destruct (stream_never_raises env url fmt sid reg) as [_ Hreg].
  cbn zeta in Hreg. rewrite Hreg.
  destruct (list_sessions_ids (delete sid reg)) as (ids & -> & Hids).
  cbn [out]. rewrite active_sessions_answer. split.
  - rewrite Hids, lookup_delete_eq. by intros [? ?].
  - intros other Hne. by rewrite Hids, lookup_delete_ne.
Qed.

End Endpoints_more.

(** ** The further properties at concrete runs *)

Lemma scalar_line_breaks_enumeration_witness :
  tool Demo.number_env (enumerate_command Demo.playlist) = inr Demo.number_run
  /\ In "7" (Text.splitlines (cp_stdout (completed Demo.number_run)))
  /\ nonblank "7" = true
  /\ json_loads Demo.number_env "7" = Some (JNum "7")
  /\ scalar (JNum "7") = true
  /\ (exists e,
         out (get_total_videos Demo.number_env Demo.playlist ∅) = Raised e)
  /\ forall total c (reg' : registry),
       translate_line Demo.number_env total c "7" reg' =
       Result [] reg' (Raised (TypeError (JNum "7"))).
Proof.
  assert (h1 : tool Demo.number_env (enumerate_command Demo.playlist)
               = inr Demo.number_run) by reflexivity.
  assert (h2 : In "7" (Text.splitlines (cp_stdout (completed Demo.number_run))))
    by (vm_compute; auto).
  assert (h3 : nonblank "7" = true) by (vm_compute; reflexivity).
  assert (h4 : json_loads Demo.number_env "7" = Some (JNum "7"))
    by (vm_compute; reflexivity).
  assert (h5 : scalar (JNum "7") = true) by reflexivity.
  exact (conj h1 (conj h2 (conj h3 (conj h4 (conj h5
    (scalar_line_breaks_enumeration Demo.number_env Demo.playlist ∅
       Demo.number_run "7" (JNum "7") h1 h2 h3 h4 h5)))))).
Defined.

Lemma enumeration_count_bounded_witness :
  tool Demo.good_env (enumerate_command Demo.playlist)
  = Demo.enum_ok Demo.two_ids
  /\ out (get_total_videos Demo.good_env Demo.playlist ∅) = Normal 2
  /\ 2 <= length (List.filter nonblank (Text.splitlines Demo.two_ids))
  /\ 2 <= length (Text.splitlines Demo.two_ids).
Proof.
  assert (h1 : tool Demo.good_env (enumerate_command Demo.playlist)
               = Demo.enum_ok Demo.two_ids) by reflexivity.
  assert (h2 : out (get_total_videos Demo.good_env Demo.playlist ∅) = Normal 2)
    by (vm_compute; reflexivity).
  exact (conj h1 (conj h2
    (enumeration_count_bounded Demo.good_env Demo.playlist ∅ _ 2 h1 h2))).
Defined.

Lemma setup_failure_single_error_witness :
  validate_youtube_url Demo.playlist = true
  /\ os_makedirs Demo.no_dir_env (DOWNLOADS_DIR Demo.no_dir_env)
     = Some (OSError "read-only file system")
  /\ stream_playlist_download Demo.no_dir_env Demo.playlist "mp4" "s1" ∅ =
     Result ([Makedirs (DOWNLOADS_DIR Demo.no_dir_env);
              Yield (EvError (str Demo.no_dir_env
                                (OSError "read-only file system")))]
             ++ cleanup_actions "s1"
                  (bool_decide (is_Some ((∅ : registry) !! "s1"))))
       (delete "s1" ∅) (Normal tt).
Proof.
  assert (h1 : validate_youtube_url Demo.playlist = true)
    by (vm_compute; reflexivity).
  assert (h2 : os_makedirs Demo.no_dir_env (DOWNLOADS_DIR Demo.no_dir_env)
               = Some (OSError "read-only file system")) by reflexivity.
  exact (conj h1 (conj h2
    (setup_failure_single_error Demo.no_dir_env Demo.playlist "mp4" "s1" ∅
       _ h1 h2))).
Defined.

Lemma popen_failure_events_witness :
  validate_youtube_url Demo.playlist = true
  /\ out (get_total_videos Demo.no_tool_env Demo.playlist ∅) = Normal 2
  /\ popen Demo.no_tool_env
       (download_command Demo.no_tool_env Demo.playlist "mp4")
     = inl (OSError "yt-dlp: not found")
  /\ events (trace (stream_playlist_download Demo.no_tool_env Demo.playlist
                      "mp4" "s1" ∅))
     = [EvTotal 2;
        EvError (str Demo.no_tool_env (OSError "yt-dlp: not found"))]
  /\ out (stream_playlist_download Demo.no_tool_env Demo.playlist
            "mp4" "s1" ∅) = Normal tt
  /\ existsb adds_session
       (trace (stream_playlist_download Demo.no_tool_env Demo.playlist
                 "mp4" "s1" ∅)) = false
  /\ sessions (stream_playlist_download Demo.no_tool_env Demo.playlist
                 "mp4" "s1" ∅) = delete "s1" ∅.
Proof.
  assert (h1 : validate_youtube_url Demo.playlist = true)
    by (vm_compute; reflexivity).
  assert (h2 : os_makedirs Demo.no_tool_env (DOWNLOADS_DIR Demo.no_tool_env)
               = None) by reflexivity.
  assert (h3 : out (get_total_videos Demo.no_tool_env Demo.playlist ∅)
               = Normal 2) by (vm_compute; reflexivity).
  assert (h4 : popen Demo.no_tool_env
                 (download_command Demo.no_tool_env Demo.playlist "mp4")
               = inl (OSError "yt-dlp: not found")) by reflexivity.
  exact (conj h1 (conj h3 (conj h4
    (popen_failure_events Demo.no_tool_env Demo.playlist "mp4" "s1" ∅ 2 _
       h1 h2 h3 h4)))).
Defined.

Lemma aborting_line_ends_stream_witness :
  validate_youtube_url Demo.playlist = true
  /\ out (get_total_videos Demo.deep_env Demo.playlist ∅) = Normal 2
  /\ p_stdout Demo.deep_process =
     ["{title:A}" +:+ Demo.nl] ++ Demo.deep_line
     :: ["{title:B}" +:+ Demo.nl]
  /\ json_loads_raises Demo.deep_env Demo.deep_line
     = RecursionError "maximum recursion depth exceeded"
  /\ aborts Demo.deep_env Demo.deep_line = true
  /\ (exists e,
         events (trace (stream_playlist_download Demo.deep_env
                          Demo.playlist "mp4" "s1" ∅)) =
         EvTotal 2 :: progress_events 2 0
                        (titles Demo.deep_env ["{title:A}" +:+ Demo.nl])
         ++ [EvError (str Demo.deep_env e)])
  /\ existsb waits
       (trace (stream_playlist_download Demo.deep_env Demo.playlist
                 "mp4" "s1" ∅)) = false
  /\ out (stream_playlist_download Demo.deep_env Demo.playlist
            "mp4" "s1" ∅) = Normal tt
  /\ sessions (stream_playlist_download Demo.deep_env Demo.playlist
                 "mp4" "s1" ∅) !! "s1" = None.
Proof.
  assert (h1 : validate_youtube_url Demo.playlist = true)
    by (vm_compute; reflexivity).
  assert (h2 : os_makedirs Demo.deep_env
                 (DOWNLOADS_DIR Demo.deep_env) = None) by reflexivity.
  assert (h3 : out (get_total_videos Demo.deep_env Demo.playlist ∅)
               = Normal 2) by (vm_compute; reflexivity).
  assert (h4 : popen Demo.deep_env
                 (download_command Demo.deep_env Demo.playlist "mp4")
               = inr Demo.deep_process) by reflexivity.
  assert (h5 : p_stdout Demo.deep_process =
               ["{title:A}" +:+ Demo.nl] ++ Demo.deep_line
               :: ["{title:B}" +:+ Demo.nl]) by reflexivity.
  assert (h6 : forallb (fun l => negb (aborts Demo.deep_env l))
                 ["{title:A}" +:+ Demo.nl] = true)
    by (vm_compute; reflexivity).
  assert (h7 : aborts Demo.deep_env Demo.deep_line = true)
    by (vm_compute; reflexivity).
  assert (h8 : json_loads_raises Demo.deep_env Demo.deep_line
               = RecursionError "maximum recursion depth exceeded")
    by (vm_compute; reflexivity).
  exact (conj h1 (conj h3 (conj h5 (conj h8 (conj h7
    (aborting_line_ends_stream Demo.deep_env Demo.playlist "mp4" "s1"
       ∅ 2 Demo.deep_process _ _ _ h1 h2 h3 h4 h5 h6 h7)))))).
Defined.

Lemma complete_only_after_clean_exit_witness :
  In EvComplete
    (events (trace (stream_playlist_download Demo.good_env Demo.playlist
                      "mp4" "s1" ∅)))
  /\ validate_youtube_url Demo.playlist = true
  /\ exists p,
      popen Demo.good_env (download_command Demo.good_env Demo.playlist "mp4")
      = inr p
      /\ p_returncode p = 0%Z
      /\ forallb (fun l => negb (aborts Demo.good_env l)) (p_stdout p) = true.
Proof.
  assert (h1 : In EvComplete
                 (events (trace (stream_playlist_download Demo.good_env
                                   Demo.playlist "mp4" "s1" ∅))))
    by (vm_compute; auto 6).
  exact (conj h1
    (complete_only_after_clean_exit Demo.good_env Demo.playlist "mp4" "s1"
       ∅ h1)).
Defined.

Lemma blank_and_untitled_lines_skipped_witness :
  (exists members,
      json_loads Demo.good_env "{id:a}" = Some (JObj members)
      /\ dict_get "title" members = None)
  /\ (forall total c (reg : registry),
         translate_line Demo.good_env total c "{id:a}" reg =
         Result [] reg (Normal c))
  /\ (forall total before after c (reg : registry),
         read_output Demo.good_env total (before ++ "{id:a}" :: after) c reg =
         read_output Demo.good_env total (before ++ after) c reg).
Proof.
  assert (h1 : exists members,
             json_loads Demo.good_env "{id:a}" = Some (JObj members)
             /\ dict_get "title" members = None)
    by (exists [("id", JStr "a")]; split; vm_compute; reflexivity).
  exact (conj h1
    (blank_and_untitled_lines_skipped Demo.good_env "{id:a}" (or_intror h1))).
Defined.

Lemma accepted_request_streams_witness :
  check_download_query Demo.vimeo_query = Some ("https://vimeo.com/1", "mp4")
  /\ get_download Demo.good_env Demo.vimeo_query ∅ =
     Result (trace (stream_playlist_download Demo.good_env
                      "https://vimeo.com/1" "mp4" (uuid4 Demo.good_env) ∅))
       (delete (uuid4 Demo.good_env) ∅) (Normal 200)
  /\ delete (uuid4 Demo.good_env) (∅ : registry) !! uuid4 Demo.good_env = None.
Proof.
  assert (h1 : check_download_query Demo.vimeo_query
               = Some ("https://vimeo.com/1", "mp4"))
    by (vm_compute; reflexivity).
  exact (conj h1
    (accepted_request_streams Demo.good_env Demo.vimeo_query _ _ ∅ h1)).
Defined.

Lemma other_sessions_untouched_witness :
  "s1" <> "s2"
  /\ sessions (stream_playlist_download Demo.good_env Demo.playlist
                 "mp4" "s2" Demo.one_session) !! "s1"
     = Demo.one_session !! "s1"
  /\ sessions (cancel_download "s2" Demo.one_session) !! "s1"
     = Demo.one_session !! "s1".
Proof.
  assert (h1 : "s1" <> "s2") by discriminate.
  exact (conj h1
    (other_sessions_untouched Demo.good_env Demo.playlist "mp4" "s2" "s1"
       Demo.one_session h1)).
Defined.

(** A request that passes the constraints with an address that is not a
    YouTube one: status 200 and the error in the stream. *)
Example vimeo_request_answered_200 :
  let r := get_download Demo.good_env Demo.vimeo_query ∅ in
  out r = Normal 200 /\ events (trace r) = [EvError "Invalid YouTube URL"].
Proof. vm_compute. split; reflexivity. Qed.
